(** * Quantized-LLM: the download / convert / quantize pipeline of quantize.py

    A shallow embedding of [quantize.py].  The script is a straight line of
    effects on the file system, the log and three external operations (the
    hub download and two spawned processes).  Paths follow [pathlib]: a
    resolved absolute path is its list of components.  The file system is a
    finite map from paths to nodes.  Effects are threaded through a small
    state-and-exception monad; what the outside world does (the hub, the
    converter, the quantizer) is a parameter [Env] of every run. *)

From Stdlib Require Import ZArith Ascii String.
From stdpp Require Import gmap strings list fin_maps pretty.

Local Open Scope list_scope.

(** ** Paths ([pathlib.PurePosixPath] restricted to absolute paths) *)

Module PathLib.

(** Components of a resolved absolute path, outermost first;
    [[]] is the root [/]. *)
Abbreviation Path := (list string).

Definition slash : ascii := "/"%char.

(** Cut a string at every slash, empty pieces included. *)
Fixpoint pieces (s : string) : list string :=
  match s with
  | EmptyString => [EmptyString]
  | String c r =>
      if Ascii.eqb c slash then EmptyString :: pieces r
      else match pieces r with
           | h :: t => String c h :: t
           | [] => [String c EmptyString]
           end
  end.

(** [pathlib] drops empty components and single dots when it parses.  (A
    root of exactly two slashes, which [pathlib] keeps apart from [/], is
    not distinguished here.) *)
Definition keep_part (s : string) : bool :=
  negb (String.eqb s EmptyString || String.eqb s ".").

Definition parse_parts (s : string) : list string :=
  List.filter keep_part (pieces s).

Definition is_absolute (s : string) : bool :=
  match s with
  | String c _ => Ascii.eqb c slash
  | EmptyString => false
  end.

(** [p / s]: an absolute right operand replaces the left one. *)
Definition div (p : Path) (s : string) : Path :=
  if is_absolute s then parse_parts s else p ++ parse_parts s.

(** [str(p)] *)
Definition str (p : Path) : string :=
  match p with
  | [] => "/"
  | _ => String.concat EmptyString (List.map (String.append "/") p)
  end.

(** [p.parent]; the root is its own parent. *)
Definition parent (p : Path) : Path := removelast p.

End PathLib.

Export PathLib.

Notation "p // s" := (div p s) (at level 40, left associativity).

(** ** File system *)

Inductive node : Type := Dir | File.

#[global] Instance node_eq_dec : EqDecision node.
Proof. solve_decision. Defined.

Abbreviation FS := (gmap (list string) node).

(** The root directory always exists. *)
Definition node_at (fs : FS) (p : Path) : option node :=
  match p with
  | [] => Some Dir
  | _ => fs !! p
  end.

(** [Path.exists()] and [Path.is_dir()] *)
Definition exists_ (fs : FS) (p : Path) : bool :=
  match node_at fs p with Some _ => true | None => false end.

Definition is_dir (fs : FS) (p : Path) : bool :=
  match node_at fs p with Some Dir => true | _ => false end.

(** ** [os.mkdir] and [Path.mkdir(parents=True, exist_ok=True)] *)

(** The errors the shape of the tree can cause; permissions, read-only
    devices and the like are outside the model. *)
Inductive errno : Type := ENOENT | ENOTDIR | EEXIST.

(** [os.mkdir(p)]: the parent is resolved first, then the name is tried.
    Only the immediate parent is looked at; below a regular file it is
    the recursion of [mkdir_up] that meets the file. *)
Definition os_mkdir (fs : FS) (p : Path) : errno + FS :=
  match p with
  | [] => inl EEXIST
  | _ =>
      match node_at fs (parent p) with
      | None => inl ENOENT
      | Some File => inl ENOTDIR
      | Some Dir =>
          match fs !! p with
          | Some _ => inl EEXIST
          | None => inr (<[p := Dir]> fs)
          end
      end
  end.

(** Python exceptions the script can end with. *)
Inductive exn : Type :=
| FileNotFoundError (msg : string)
| NotADirectoryError (p : Path)
| FileExistsError (p : Path)
| CalledProcessError (returncode : Z) (cmd : list string)
| LaunchError (cmd : list string)
| HubError (why : string).

Definition os_error (e : errno) (p : Path) : exn :=
  match e with
  | ENOENT => FileNotFoundError ("[Errno 2] No such file or directory: '" +:+ str p +:+ "'")
  | ENOTDIR => NotADirectoryError p
  | EEXIST => FileExistsError p
  end.

(** [p.mkdir(parents=False, exist_ok=True)]: a missing parent is raised as
    it is; any other [OSError] is swallowed when [p] is a directory. *)
Definition mkdir_exist_ok (fs : FS) (p : Path) : (exn + unit) * FS :=
  match os_mkdir fs p with
  | inr fs' => (inr tt, fs')
  | inl ENOENT => (inl (os_error ENOENT p), fs)
  | inl e => if is_dir fs p then (inr tt, fs) else (inl (os_error e p), fs)
  end.

(** [p.mkdir(parents=True, exist_ok=True)] for [p = rev rp].  The recursion
    of [pathlib] goes to [p.parent], which drops the head of [rp], and then
    tries [p] again without [parents]; at the root [p.parent == p] and the
    error is raised.  Directories made on the way stay when a later step
    raises. *)
Fixpoint mkdir_up (fs : FS) (rp : list string) : (exn + unit) * FS :=
  match os_mkdir fs (rev rp) with
  | inr fs' => (inr tt, fs')
  | inl ENOENT =>
      match rp with
      | [] => (inl (os_error ENOENT []), fs)
      | _ :: rq =>
          match mkdir_up fs rq with
          | (inl e, fs1) => (inl e, fs1)
          | (inr _, fs1) => mkdir_exist_ok fs1 (rev rp)
          end
      end
  | inl e => if is_dir fs (rev rp) then (inr tt, fs) else (inl (os_error e (rev rp)), fs)
  end.

Definition mkdir_parents (fs : FS) (p : Path) : (exn + unit) * FS := mkdir_up fs (rev p).

(** ** The outside world *)

(** How a spawned process ended: with a return code, or not launched at all. *)
Inductive proc_outcome : Type :=
| Exited (returncode : Z)
| NotLaunched.

Inductive fetch_outcome : Type :=
| Fetched
| FetchFailed (why : string).

(** The hub and the operating system: each external operation reads the
    file system, may change it in any way, and reports how it ended. *)
Record Env : Type := {
  hub_snapshot_download : string -> string -> FS -> fetch_outcome * FS;
  os_spawn : list string -> option string -> FS -> proc_outcome * FS
}.

(** What a run does that an observer can see, oldest first.  External calls
    are recorded with the way they ended. *)
Inductive event : Type :=
| EPrint (line : string)
| ELog (message : string)
| EDownload (repo_id local_dir : string) (o : fetch_outcome)
| ESpawn (cmd : list string) (cwd : option string) (o : proc_outcome).

Definition is_external (e : event) : bool :=
  match e with
  | EDownload _ _ _ | ESpawn _ _ _ => true
  | _ => false
  end.

Definition is_spawn (e : event) : bool :=
  match e with
  | ESpawn _ _ _ => true
  | _ => false
  end.

Record World : Type := { fs : FS; trace : list event }.

Definition boot (f : FS) : World := {| fs := f; trace := [] |}.

(** ** State and exception monad *)

Definition M (A : Type) : Type := World -> (exn + A) * World.

#[global] Instance M_ret : MRet M := fun A a w => (inr a, w).

#[global] Instance M_bind : MBind M := fun A B k m w =>
  match m w with
  | (inl e, w') => (inl e, w')
  | (inr a, w') => k a w'
  end.

Definition raise {A} (e : exn) : M A := fun w => (inl e, w).

Definition emit (e : event) : M unit :=
  fun w => (inr tt, {| fs := fs w; trace := trace w ++ [e] |}).

Definition print (line : string) : M unit := emit (EPrint line).

(** [logger.info(fmt, args)] with the message already formatted. *)
Definition logger_info (message : string) : M unit := emit (ELog message).

Definition with_fs {A} (f : FS -> A) : M A := fun w => (inr (f (fs w)), w).

Definition mkdir (p : Path) : M unit :=
  fun w =>
    let '(r, fs') := mkdir_parents (fs w) p in
    (r, {| fs := fs'; trace := trace w |}).

(** ** Configuration block of [quantize.py] *)

(** What a run is configured with: where the script lives, the interpreter
    running it, and the model name of the edit block. *)
Record Config : Type := {
  ROOT_DIR : Path;
  sys_executable : string;
  MODEL_NAME : string
}.

Section Configuration.

Variable cfg : Config.

Definition LLAMA_CPP_DIR : Path := ROOT_DIR cfg // "llama.cpp".
Definition ARTIFICATS_DIR : Path := LLAMA_CPP_DIR // "artifacts".
Definition quant_bin : Path := LLAMA_CPP_DIR // "build" // "bin" // "llama-quantize".

Definition MODEL_ID : string := "Qwen/" +:+ MODEL_NAME cfg.
Definition GGUF_F16_MODEL_PATH : Path :=
  ARTIFICATS_DIR // (MODEL_NAME cfg +:+ "_Q4_K_M.gguf").

Definition ANDROID_ASSETS_DIR : Path :=
  ROOT_DIR cfg // "llama.cpp/examples/llama.android/app/src/main/assets/models".
Definition GGUF_Q4_MODEL_PATH : Path :=
  ANDROID_ASSETS_DIR // (MODEL_NAME cfg +:+ "_Q4_K_M.gguf").

Definition hf_dir : Path := ARTIFICATS_DIR // "hf_model".
Definition hf_to_gguf_convert_script : Path := LLAMA_CPP_DIR // "convert_hf_to_gguf.py".

(** The three messages of the explicit [raise FileNotFoundError(...)]. *)
Definition llama_cpp_missing : string :=
  "llama.cpp not found at " +:+ str LLAMA_CPP_DIR.

Definition build_command : string :=
  "cd " +:+ str LLAMA_CPP_DIR +:+ " && cmake -B build && cmake --build build --config Release".

Definition quant_bin_missing : string :=
  "llama-quantize binary not found. Build llama.cpp (`" +:+ build_command +:+ "`).".

Definition convert_script_missing : string :=
  "convert script not found at " +:+ str hf_to_gguf_convert_script
    +:+ ". Clone llama.cpp and ensure script is present.".

Definition cmd_convert : list string :=
  [ sys_executable cfg;
    str hf_to_gguf_convert_script;
    str hf_dir;
    "--outfile"; str GGUF_F16_MODEL_PATH;
    "--outtype"; "f16" ].

Definition cmd_quant : list string :=
  [ str quant_bin;
    str GGUF_F16_MODEL_PATH;
    str GGUF_Q4_MODEL_PATH;
    "Q4_K_M" ].

(** Module level, lines 22 to 47: the print, the asset directory, the two
    checks, the artifacts directory. *)
Definition module_load : M unit :=
  print ("ROOT_DIR: " +:+ str (ROOT_DIR cfg));;
  mkdir ANDROID_ASSETS_DIR;;
  d ← with_fs (fun f => is_dir f LLAMA_CPP_DIR);
  if negb d then raise (FileNotFoundError llama_cpp_missing)
  else
    e ← with_fs (fun f => exists_ f quant_bin);
    if negb e then raise (FileNotFoundError quant_bin_missing)
    else mkdir ARTIFICATS_DIR.

Section Stages.

Variable env : Env.

(** [subprocess.run(cmd, check=True, cwd=cwd)] *)
Definition subprocess_run_check (cmd : list string) (cwd : option string) : M unit :=
  fun w =>
    let '(o, fs') := os_spawn env cmd cwd (fs w) in
    let w' := {| fs := fs'; trace := trace w ++ [ESpawn cmd cwd o] |} in
    match o with
    | Exited rc =>
        if Z.eqb rc 0 then (inr tt, w') else (inl (CalledProcessError rc cmd), w')
    | NotLaunched => (inl (LaunchError cmd), w')
    end.

(** [snapshot_download(repo_id=, local_dir=, local_dir_use_symlinks=False)];
    the returned path is not used by the script. *)
Definition snapshot_download (repo_id local_dir : string) : M unit :=
  fun w =>
    let '(o, fs') := hub_snapshot_download env repo_id local_dir (fs w) in
    let w' := {| fs := fs'; trace := trace w ++ [EDownload repo_id local_dir o] |} in
    match o with
    | Fetched => (inr tt, w')
    | FetchFailed why => (inl (HubError why), w')
    end.

Definition run (cmd : list string) (cwd : option string) : M unit :=
  logger_info ("[RUN] " +:+ String.concat " " cmd);;
  subprocess_run_check cmd cwd.

Definition newline : string := String (Ascii.ascii_of_nat 10) EmptyString.

Definition main : M unit :=
  logger_info ("Downloading model from Hugging Face: " +:+ MODEL_ID);;
  mkdir hf_dir;;
  snapshot_download MODEL_ID (str hf_dir);;
  logger_info ("Downloaded to: " +:+ str hf_dir);;
  e ← with_fs (fun f => exists_ f hf_to_gguf_convert_script);
  if negb e then raise (FileNotFoundError convert_script_missing)
  else
    logger_info ("Converting to GGUF (f16) -> " +:+ str GGUF_F16_MODEL_PATH);;
    run cmd_convert None;;
    logger_info ("Quantizing to Q4_K_M -> " +:+ str GGUF_Q4_MODEL_PATH);;
    run cmd_quant None;;
    logger_info ("Done." +:+ newline +:+ "Outputs:");;
    logger_info (" - f16 GGUF: " +:+ str GGUF_F16_MODEL_PATH);;
    logger_info (" - Q4_K_M GGUF: " +:+ str GGUF_Q4_MODEL_PATH).

(** Running the file as a script: the module body, then the
    [__main__] guard. *)
Definition script : M unit :=
  module_load;;
  main;;
  print ("GGUF_Q4_MODEL_PATH " +:+ str GGUF_Q4_MODEL_PATH).

End Stages.

End Configuration.

(** CPython ends with status 0 when the script returns and with status 1
    when an exception other than [SystemExit] reaches the top level; the
    script never calls [sys.exit]. *)
Definition exit_status {A} (r : exn + A) : Z :=
  match r with
  | inr _ => 0
  | inl _ => 1
  end.

(** The edit block as it stands in the repository. *)
Definition configured (root : Path) (exe : string) : Config :=
  {| ROOT_DIR := root; sys_executable := exe; MODEL_NAME := "Qwen2.5-1.5B-Instruct" |}.

(** ** Concrete runs *)

Module Sample.

Definition here : Path := ["home"; "dev"; "Quantized-LLM"].

Definition cfg : Config := configured here "/usr/bin/python3".

(** A checkout with no [llama.cpp] next to the script. *)
Definition bare : FS :=
  <[ ["home"; "dev"; "Quantized-LLM"] := Dir ]>
    (<[ ["home"; "dev"] := Dir ]> (<[ ["home"] := Dir ]> ∅)).

(** [llama.cpp] cloned but not built, converter script absent. *)
Definition cloned : FS := <[ here ++ ["llama.cpp"] := Dir ]> bare.

(** [llama.cpp] built, without the converter script. *)
Definition built_no_script : FS :=
  <[ here ++ ["llama.cpp"; "build"; "bin"; "llama-quantize"] := File ]>
    (<[ here ++ ["llama.cpp"; "build"; "bin"] := Dir ]>
       (<[ here ++ ["llama.cpp"; "build"] := Dir ]> cloned)).

(** [llama.cpp] built, converter script present. *)
Definition ready : FS :=
  <[ here ++ ["llama.cpp"; "convert_hf_to_gguf.py"] := File ]> built_no_script.

(** Tools that do their job: the hub fills the snapshot directory, the
    converter writes its [--outfile], the quantizer writes its output. *)
Definition good : Env :=
  {| hub_snapshot_download := fun _ dir f =>
       (Fetched, <[ parse_parts dir ++ ["config.json"] := File ]> f);
     os_spawn := fun cmd _ f =>
       match cmd with
       | [_; _; _; flag; out; _; _] =>
           if String.eqb flag "--outfile"
           then (Exited 0, <[ parse_parts out := File ]> f)
           else (NotLaunched, f)
       | [_; _; out; _] => (Exited 0, <[ parse_parts out := File ]> f)
       | _ => (NotLaunched, f)
       end |}.

(** The converter ends with status 3. *)
Definition converter_fails : Env :=
  {| hub_snapshot_download := hub_snapshot_download good;
     os_spawn := fun cmd cwd f =>
       match cmd with
       | [_; _; _; _; _; _; _] => (Exited 3, f)
       | _ => os_spawn good cmd cwd f
       end |}.

(** External operations that succeed and write nothing. *)
Definition idle : Env :=
  {| hub_snapshot_download := fun _ _ f => (Fetched, f);
     os_spawn := fun _ _ f => (Exited 0, f) |}.

(** The same checkout configured for another model. *)
Definition other_cfg : Config :=
  {| ROOT_DIR := here;
     sys_executable := "/usr/bin/python3";
     MODEL_NAME := "Llama-3.2-1B-Instruct" |}.

End Sample.

(** ** Vocabulary of the statements *)

(** Every entry hangs under a directory, as in any real file system. *)
Definition tree (f : FS) : Prop :=
  ∀ p n, p ≠ [] → f !! p = Some n → node_at f (parent p) = Some Dir.

(** [f'] is [f] with directories added at paths satisfying [P], nothing
    else: no entry of [f] is changed or removed. *)
Definition grows (P : Path → Prop) (f f' : FS) : Prop :=
  (∀ q n, f !! q = Some n → f' !! q = Some n) ∧
  (∀ q n, f !! q = None → f' !! q = Some n → n = Dir ∧ q ≠ [] ∧ P q).

(** On the way to [target]. *)
Definition towards (target : Path) : Path → Prop := fun q => q `prefix_of` target.

(** A checkable form of [tree], for concrete file systems. *)
Definition tree_check (f : FS) : bool :=
  forallb (fun e : Path * node =>
             match e.1 with
             | [] => true
             | _ => is_dir f (parent e.1)
             end) (map_to_list f).

(** The components of the asset directory below [llama.cpp]. *)
Definition asset_tail : list string :=
  ["examples"; "llama.android"; "app"; "src"; "main"; "assets"; "models"].

(** The first thing a run does: it prints where the script lives. *)
Definition root_line (cfg : Config) : event := EPrint ("ROOT_DIR: " +:+ str (ROOT_DIR cfg)).

(** The line [run] logs before it spawns [cmd]. *)
Definition run_line (cmd : list string) : event :=
  ELog ("[RUN] " +:+ String.concat " " cmd).

(** The exceptions the script raises itself on a missing tool-chain
    directory or quantizer binary. *)
Definition preflight_error (cfg : Config) (e : exn) : Prop :=
  e = FileNotFoundError (llama_cpp_missing cfg) ∨
  e = FileNotFoundError (quant_bin_missing cfg).

(** The external calls of a run, in order. *)
Definition external_calls (w : World) : list event :=
  List.filter is_external (trace w).

Definition spawned (w : World) : list event :=
  List.filter is_spawn (trace w).

(** The arguments of an external call, without the way it ended. *)
Definition call_args (e : event) : option (list string) :=
  match e with
  | EDownload repo_id local_dir _ => Some [repo_id; local_dir]
  | ESpawn cmd _ _ => Some cmd
  | _ => None
  end.

(** What the run relies on from the two tools: a converter that exits with
    zero has written its [--outfile]; a quantizer that exits with zero has
    written its output and left its input file in place. *)
Definition converter_writes (env : Env) (out : Path) : Prop :=
  ∀ exe script src cwd f f',
    os_spawn env [exe; script; src; "--outfile"; str out; "--outtype"; "f16"] cwd f
      = (Exited 0, f') →
    node_at f' out = Some File.

Definition quantizer_writes (env : Env) (inp out : Path) : Prop :=
  ∀ bin scheme cwd f f',
    os_spawn env [bin; str inp; str out; scheme] cwd f = (Exited 0, f') →
    node_at f' out = Some File ∧
    (node_at f inp = Some File → node_at f' inp = Some File).

Definition gguf_name : string := "Qwen2.5-1.5B-Instruct_Q4_K_M.gguf".

(** An environment whose external operations leave the file system alone:
    what changes under it is the run's own doing. *)
Definition inert (env : Env) : Prop :=
  (∀ a b f, (hub_snapshot_download env a b f).2 = f) ∧
  (∀ c d f, (os_spawn env c d f).2 = f).

(** Where the run makes directories: on the way to the asset directory
    or to the snapshot directory. *)
Definition own_target (cfg : Config) (q : Path) : Prop :=
  q `prefix_of` ANDROID_ASSETS_DIR cfg ∨ q `prefix_of` hf_dir cfg.

(** ** [benchmarks/analysis.py] *)

(** One row of the data frame, each cell as the text an f-string shows
    for it.  The column names are the ones passed to [read_csv]. *)
Record BenchRow : Type := {
  dtype : string;
  timestamp : string;
  ttft_ms : string;
  tokens : string;
  tps : string;
  peak_mem_mb : string;
  avg_mem_mb : string;
  prompt_chars : string;
  response_chars : string
}.

(** [s * n] *)
Fixpoint string_times (s : string) (n : nat) : string :=
  match n with
  | O => EmptyString
  | S n' => s +:+ string_times s n'
  end.

(** The body of the [for index, row in df.iterrows()] loop. *)
Definition print_record (index : nat) (row : BenchRow) : M unit :=
  print (newline +:+ "Record " +:+ pretty (index + 1) +:+ ":");;
  print ("  Model: " +:+ dtype row);;
  print ("  Timestamp: " +:+ timestamp row);;
  print ("  TTFT: " +:+ ttft_ms row +:+ "ms");;
  print ("  Tokens: " +:+ tokens row);;
  print ("  TPS: " +:+ tps row);;
  print ("  Peak Memory: " +:+ peak_mem_mb row +:+ "MB");;
  print ("  Average Memory: " +:+ avg_mem_mb row +:+ "MB");;
  print ("  Prompt Length: " +:+ prompt_chars row);;
  print ("  Response Length: " +:+ response_chars row).

(** [df.iterrows()] over the default index [0, 1, ...]. *)
Fixpoint iterrows (body : nat → BenchRow → M unit) (index : nat)
    (rows : list BenchRow) : M unit :=
  match rows with
  | [] => mret tt
  | row :: rest => body index row;; iterrows body (S index) rest
  end.

Section Analysis.

(** [pd.read_csv(file_path, comment='#', names=[...])]: the rows of the
    file, or the exception raised while opening or parsing it. *)
Variable read_csv : string → FS → exn + list BenchRow.

Definition analyze_benchmark (file_path model_name : string) : M unit :=
  fun w =>
    match read_csv file_path (fs w) with
    | inl e => (inl e, w)
    | inr df =>
        (print (newline +:+ model_name +:+ " Performance Summary:");;
         print (string_times "-" 40);;
         iterrows print_record 0 df) w
    end.

(** The module body: the one call at the bottom of the file. *)
Definition analysis_script : M unit :=
  analyze_benchmark "benchmarks/llm_benchmark.log" "Combined Models".

End Analysis.

(** The ten lines printed for the row at position [index]. *)
Definition record_lines (index : nat) (row : BenchRow) : list string :=
  [ newline +:+ "Record " +:+ pretty (index + 1) +:+ ":";
    "  Model: " +:+ dtype row;
    "  Timestamp: " +:+ timestamp row;
    "  TTFT: " +:+ ttft_ms row +:+ "ms";
    "  Tokens: " +:+ tokens row;
    "  TPS: " +:+ tps row;
    "  Peak Memory: " +:+ peak_mem_mb row +:+ "MB";
    "  Average Memory: " +:+ avg_mem_mb row +:+ "MB";
    "  Prompt Length: " +:+ prompt_chars row;
    "  Response Length: " +:+ response_chars row ].

(** All the record lines of a data frame whose first row has position
    [index]. *)
Fixpoint all_record_lines (index : nat) (rows : list BenchRow) : list string :=
  match rows with
  | [] => []
  | row :: rest => record_lines index row ++ all_record_lines (S index) rest
  end.

(** ** Further vocabulary and inputs *)

Definition has_slash (s : string) : bool :=
  existsb (Ascii.eqb slash) (list_ascii_of_string s).

Definition space : ascii := " "%char.

Definition has_space (s : string) : bool :=
  existsb (Ascii.eqb space) (list_ascii_of_string s).

(** A checkout in which [llama.cpp] is a regular file. *)
Definition llama_cpp_is_a_file : FS :=
  <[ Sample.here ++ ["llama.cpp"] := File ]> Sample.bare.

(** A configuration whose model name starts with a slash. *)
Definition absolute_name : Config :=
  {| ROOT_DIR := Sample.here;
     sys_executable := "/usr/bin/python3";
     MODEL_NAME := "/tmp/model" |}.

(** ** The script statement by statement *)

(** The four stages of the pipeline: the two checks of the module body,
    and in [main] the download, the conversion and the quantization. *)
Inductive Stage : Type := Preflight | Acquisition | Conversion | Quantization.

Definition stage_code (s : Stage) : nat :=
  match s with
  | Preflight => 0
  | Acquisition => 1
  | Conversion => 2
  | Quantization => 3
  end.

(** The names the script binds to paths, in the order it binds them. *)
Inductive name : Type :=
| N_ROOT_DIR
| N_LLAMA_CPP_DIR
| N_ARTIFICATS_DIR
| N_quant_bin
| N_GGUF_F16_MODEL_PATH
| N_ANDROID_ASSETS_DIR
| N_GGUF_Q4_MODEL_PATH
| N_hf_dir
| N_hf_to_gguf_convert_script.

Definition name_code (x : name) : nat :=
  match x with
  | N_ROOT_DIR => 0
  | N_LLAMA_CPP_DIR => 1
  | N_ARTIFICATS_DIR => 2
  | N_quant_bin => 3
  | N_GGUF_F16_MODEL_PATH => 4
  | N_ANDROID_ASSETS_DIR => 5
  | N_GGUF_Q4_MODEL_PATH => 6
  | N_hf_dir => 7
  | N_hf_to_gguf_convert_script => 8
  end.

(** The path variables bound so far, the latest binding first. *)
Definition Namespace : Type := list (name * Path).

Definition unbound : Namespace := [].

Definition assign (x : name) (p : Path) (ns : Namespace) : Namespace := (x, p) :: ns.

Fixpoint lookup_name (ns : Namespace) (x : name) : option Path :=
  match ns with
  | [] => None
  | (y, p) :: rest =>
      if Nat.eqb (name_code y) (name_code x) then Some p else lookup_name rest x
  end.

(** Reading a variable; every read of the script follows its binding. *)
Definition value (ns : Namespace) (x : name) : Path :=
  match lookup_name ns x with
  | Some p => p
  | None => []
  end.

(** A statement either binds a path variable to the value of an expression
    over the variables bound so far, or acts on the world; an action
    belongs to a stage, or to none (the prints, the module-level [mkdir]s,
    the closing log lines). *)
Inductive stmt : Type :=
| Assign (x : name) (e : Namespace → Path)
| Effect (s : option Stage) (act : Namespace → M unit).

(** What a run of the statements keeps besides the world: the namespace,
    the stages entered so far (the latest first), and for every binding
    made the stages that had been entered when it was made. *)
Record Frame : Type := {
  names : Namespace;
  entered : list Stage;
  bound : list (name * list Stage)
}.

Definition start : Frame := {| names := unbound; entered := []; bound := [] |}.

(** An action of stage [s] runs: the stage is entered unless the run is in
    it already. *)
Definition enter (s : option Stage) (l : list Stage) : list Stage :=
  match s with
  | None => l
  | Some st =>
      match l with
      | [] => [st]
      | cur :: _ => if Nat.eqb (stage_code cur) (stage_code st) then l else st :: l
      end
  end.

(** Statements run in order; an exception ends the run. *)
Fixpoint exec_stmts (ss : list stmt) (fr : Frame) (w : World)
    : (exn + unit) * Frame * World :=
  match ss with
  | [] => (inr tt, fr, w)
  | Assign x e :: rest =>
      exec_stmts rest
        {| names := assign x (e (names fr)) (names fr);
           entered := entered fr;
           bound := bound fr ++ [(x, entered fr)] |} w
  | Effect s act :: rest =>
      let fr' := {| names := names fr; entered := enter s (entered fr); bound := bound fr |} in
      match act (names fr) w with
      | (inl e, w') => (inl e, fr', w')
      | (inr _, w') => exec_stmts rest fr' w'
      end
  end.

(** [quantize.py] run as a script, statement by statement: lines 22 to 47
    of the module body, [main] (lines 57 to 89) and the final print. *)
Definition statements (cfg : Config) (env : Env) : list stmt :=
  [ (* 22 *) Assign N_ROOT_DIR (fun _ => ROOT_DIR cfg);
    (* 23 *) Effect None (fun ns => print ("ROOT_DIR: " +:+ str (value ns N_ROOT_DIR)));
    (* 24 *) Assign N_LLAMA_CPP_DIR (fun ns => value ns N_ROOT_DIR // "llama.cpp");
    (* 25 *) Assign N_ARTIFICATS_DIR (fun ns => value ns N_LLAMA_CPP_DIR // "artifacts");
    (* 26 *) Assign N_quant_bin
               (fun ns => value ns N_LLAMA_CPP_DIR // "build" // "bin" // "llama-quantize");
    (* 33 *) Assign N_GGUF_F16_MODEL_PATH
               (fun ns => value ns N_ARTIFICATS_DIR // (MODEL_NAME cfg +:+ "_Q4_K_M.gguf"));
    (* 35 *) Assign N_ANDROID_ASSETS_DIR
               (fun ns => value ns N_ROOT_DIR
                            // "llama.cpp/examples/llama.android/app/src/main/assets/models");
    (* 36 *) Effect None (fun ns => mkdir (value ns N_ANDROID_ASSETS_DIR));
    (* 37 *) Assign N_GGUF_Q4_MODEL_PATH
               (fun ns => value ns N_ANDROID_ASSETS_DIR // (MODEL_NAME cfg +:+ "_Q4_K_M.gguf"));
    (* 40 *) Effect (Some Preflight) (fun ns =>
               d ← with_fs (fun f => is_dir f (value ns N_LLAMA_CPP_DIR));
               if negb d
               then raise (FileNotFoundError
                             ("llama.cpp not found at " +:+ str (value ns N_LLAMA_CPP_DIR)))
               else mret tt);
    (* 44 *) Effect (Some Preflight) (fun ns =>
               e ← with_fs (fun f => exists_ f (value ns N_quant_bin));
               if negb e
               then raise (FileNotFoundError
                             ("llama-quantize binary not found. Build llama.cpp (`"
                                +:+ ("cd " +:+ str (value ns N_LLAMA_CPP_DIR)
                                       +:+ " && cmake -B build && cmake --build build --config Release")
                                +:+ "`)."))
               else mret tt);
    (* 47 *) Effect None (fun ns => mkdir (value ns N_ARTIFICATS_DIR));
    (* 57 *) Effect (Some Acquisition) (fun _ =>
               logger_info ("Downloading model from Hugging Face: " +:+ MODEL_ID cfg));
    (* 58 *) Assign N_hf_dir (fun ns => value ns N_ARTIFICATS_DIR // "hf_model");
    (* 59 *) Effect (Some Acquisition) (fun ns => mkdir (value ns N_hf_dir));
    (* 60 *) Effect (Some Acquisition) (fun ns =>
               snapshot_download env (MODEL_ID cfg) (str (value ns N_hf_dir)));
    (* 61 *) Effect (Some Acquisition) (fun ns =>
               logger_info ("Downloaded to: " +:+ str (value ns N_hf_dir)));
    (* 64 *) Assign N_hf_to_gguf_convert_script
               (fun ns => value ns N_LLAMA_CPP_DIR // "convert_hf_to_gguf.py");
    (* 65 *) Effect (Some Conversion) (fun ns =>
               e ← with_fs (fun f => exists_ f (value ns N_hf_to_gguf_convert_script));
               if negb e
               then raise (FileNotFoundError
                             ("convert script not found at "
                                +:+ str (value ns N_hf_to_gguf_convert_script)
                                +:+ ". Clone llama.cpp and ensure script is present."))
               else mret tt);
    (* 68 *) Effect (Some Conversion) (fun ns =>
               logger_info ("Converting to GGUF (f16) -> "
                              +:+ str (value ns N_GGUF_F16_MODEL_PATH)));
    (* 76 *) Effect (Some Conversion) (fun ns =>
               run env [ sys_executable cfg;
                         str (value ns N_hf_to_gguf_convert_script);
                         str (value ns N_hf_dir);
                         "--outfile"; str (value ns N_GGUF_F16_MODEL_PATH);
                         "--outtype"; "f16" ] None);
    (* 78 *) Effect (Some Quantization) (fun ns =>
               logger_info ("Quantizing to Q4_K_M -> "
                              +:+ str (value ns N_GGUF_Q4_MODEL_PATH)));
    (* 85 *) Effect (Some Quantization) (fun ns =>
               run env [ str (value ns N_quant_bin);
                         str (value ns N_GGUF_F16_MODEL_PATH);
                         str (value ns N_GGUF_Q4_MODEL_PATH);
                         "Q4_K_M" ] None);
    (* 87 *) Effect None (fun _ => logger_info ("Done." +:+ newline +:+ "Outputs:"));
    (* 88 *) Effect None (fun ns =>
               logger_info (" - f16 GGUF: " +:+ str (value ns N_GGUF_F16_MODEL_PATH)));
    (* 89 *) Effect None (fun ns =>
               logger_info (" - Q4_K_M GGUF: " +:+ str (value ns N_GGUF_Q4_MODEL_PATH)));
    (* 94 *) Effect None (fun ns =>
               print ("GGUF_Q4_MODEL_PATH " +:+ str (value ns N_GGUF_Q4_MODEL_PATH))) ].

(** The path each name stands for under a configuration. *)
Definition path_of (cfg : Config) (x : name) : Path :=
  match x with
  | N_ROOT_DIR => ROOT_DIR cfg
  | N_LLAMA_CPP_DIR => LLAMA_CPP_DIR cfg
  | N_ARTIFICATS_DIR => ARTIFICATS_DIR cfg
  | N_quant_bin => quant_bin cfg
  | N_GGUF_F16_MODEL_PATH => GGUF_F16_MODEL_PATH cfg
  | N_ANDROID_ASSETS_DIR => ANDROID_ASSETS_DIR cfg
  | N_GGUF_Q4_MODEL_PATH => GGUF_Q4_MODEL_PATH cfg
  | N_hf_dir => hf_dir cfg
  | N_hf_to_gguf_convert_script => hf_to_gguf_convert_script cfg
  end.

(** The file system a first failing run leaves on a checkout that is not
    built. *)
Definition after_failed_run : FS := fs (module_load Sample.cfg (boot Sample.cloned)).2.

(** ** Facts about paths *)

Section PathFacts.

Lemma parent_snoc (p : Path) (c : string) : parent (p ++ [c]) = p.
Proof. unfold parent. apply removelast_last. Qed.

Lemma parent_shorter (p : Path) : p ≠ [] → parent p ≠ p.
Proof.
  intros Hp Heq. destruct (exists_last Hp) as (q & c & ->).
  rewrite parent_snoc in Heq.
  apply (f_equal length) in Heq. rewrite length_app in Heq. simpl in Heq. lia.
Qed.

Lemma prefix_snoc_inv (q p : Path) (c : string) :
  q `prefix_of` p ++ [c] → q = p ++ [c] ∨ q `prefix_of` p.
Proof.
  intros [k Hk]. destruct k as [|d k _] using rev_ind.
  - left. rewrite app_nil_r in Hk. done.
  - right. exists k. rewrite app_assoc in Hk.
    by apply app_inj_tail in Hk as [-> _].
Qed.

Variable cfg : Config.

Lemma LLAMA_CPP_DIR_eq : LLAMA_CPP_DIR cfg = ROOT_DIR cfg ++ ["llama.cpp"].
Proof. reflexivity. Qed.

Lemma ANDROID_ASSETS_DIR_eq : ANDROID_ASSETS_DIR cfg = LLAMA_CPP_DIR cfg ++ asset_tail.
Proof. rewrite LLAMA_CPP_DIR_eq. unfold ANDROID_ASSETS_DIR, div. simpl. by rewrite <- app_assoc. Qed.

Lemma ARTIFICATS_DIR_eq : ARTIFICATS_DIR cfg = LLAMA_CPP_DIR cfg ++ ["artifacts"].
Proof. reflexivity. Qed.

Lemma hf_dir_eq : hf_dir cfg = LLAMA_CPP_DIR cfg ++ ["artifacts"; "hf_model"].
Proof. unfold hf_dir. rewrite ARTIFICATS_DIR_eq. unfold div. simpl. by rewrite <- app_assoc. Qed.

Lemma quant_bin_eq : quant_bin cfg = LLAMA_CPP_DIR cfg ++ ["build"; "bin"; "llama-quantize"].
Proof. unfold quant_bin, div. simpl. by rewrite <- !app_assoc. Qed.

Lemma quant_bin_not_under_assets (q : Path) :
  q `prefix_of` ANDROID_ASSETS_DIR cfg → q ≠ quant_bin cfg.
Proof.
  rewrite ANDROID_ASSETS_DIR_eq, quant_bin_eq. intros [k Hk] ->.
  rewrite <- app_assoc in Hk. apply app_inv_head in Hk. discriminate Hk.
Qed.

End PathFacts.

(** ** Facts about [mkdir] *)

Section MkdirFacts.

Lemma node_at_lookup (f : FS) (p : Path) : p ≠ [] → node_at f p = f !! p.
Proof. by destruct p. Qed.

Lemma os_mkdir_inr (f f' : FS) (p : Path) :
  os_mkdir f p = inr f' →
  p ≠ [] ∧ node_at f (parent p) = Some Dir ∧ f !! p = None ∧ f' = <[p := Dir]> f.
Proof.
  unfold os_mkdir. destruct p as [|c p]; [done|].
  destruct (node_at f (parent (c :: p))) as [[]|]; try done.
  destruct (f !! (c :: p)) eqn:E; [done|]. intros [= <-]. done.
Qed.

Lemma grows_refl (P : Path → Prop) (f : FS) : grows P f f.
Proof. split; [done|]. intros q n H1 H2. congruence. Qed.

Lemma grows_trans (P : Path → Prop) (f g h : FS) :
  grows P f g → grows P g h → grows P f h.
Proof.
  intros [A1 A2] [B1 B2]. split; [by auto|].
  intros q n Hq Hh. destruct (g !! q) as [m|] eqn:E.
  - pose proof (B1 _ _ E) as E'. rewrite Hh in E'. injection E' as ->.
    by apply A2.
  - by apply B2.
Qed.

Lemma grows_mono (P Q : Path → Prop) (f f' : FS) :
  (∀ q, P q → Q q) → grows P f f' → grows Q f f'.
Proof.
  intros HPQ [A1 A2]. split; [done|]. intros q n Hq Hq'.
  destruct (A2 _ _ Hq Hq') as (? & ? & ?). auto.
Qed.

Lemma grows_insert (f : FS) (p : Path) :
  p ≠ [] → f !! p = None → grows (towards p) f (<[p := Dir]> f).
Proof.
  intros Hne Hp. split.
  - intros q n Hq. rewrite lookup_insert_ne; [done|]. congruence.
  - intros q n Hq. rewrite lookup_insert. case_decide as E.
    + intros [= <-]. subst q. unfold towards. done.
    + congruence.
Qed.

Lemma os_mkdir_grows (f f' : FS) (p : Path) :
  os_mkdir f p = inr f' → grows (towards p) f f'.
Proof. intros E. apply os_mkdir_inr in E as (? & _ & ? & ->). by apply grows_insert. Qed.

Lemma mkdir_exist_ok_grows (f f' : FS) (p : Path) r :
  mkdir_exist_ok f p = (r, f') → grows (towards p) f f'.
Proof.
  unfold mkdir_exist_ok. destruct (os_mkdir f p) as [[]|g] eqn:E.
  - intros [= _ <-]. apply grows_refl.
  - destruct (is_dir f p); intros [= _ <-]; apply grows_refl.
  - destruct (is_dir f p); intros [= _ <-]; apply grows_refl.
  - intros [= _ <-]. by apply os_mkdir_grows.
Qed.

Lemma towards_snoc (p : Path) (c : string) (q : Path) :
  towards p q → towards (p ++ [c]) q.
Proof. unfold towards. intros H. by apply prefix_app_r. Qed.

Lemma mkdir_up_grows (rp : list string) : ∀ (f f' : FS) r,
  mkdir_up f rp = (r, f') → grows (towards (rev rp)) f f'.
Proof.
  induction rp as [|c rq IH]; intros f f' r; simpl mkdir_up.
  - intros [= _ <-]. apply grows_refl.
  - destruct (os_mkdir f (rev rq ++ [c])) as [[]|g] eqn:E.
    + destruct (mkdir_up f rq) as [[e|[]] f1] eqn:E1.
      * intros [= _ <-]. apply IH in E1.
        eapply grows_mono; [apply towards_snoc|exact E1].
      * intros E2. apply IH in E1. apply mkdir_exist_ok_grows in E2.
        eapply grows_trans; [|exact E2].
        eapply grows_mono; [apply towards_snoc|exact E1].
    + destruct (is_dir f _); intros [= _ <-]; apply grows_refl.
    + destruct (is_dir f _); intros [= _ <-]; apply grows_refl.
    + intros [= _ <-]. by apply os_mkdir_grows.
Qed.

Lemma mkdir_parents_grows (f f' : FS) (p : Path) r :
  mkdir_parents f p = (r, f') → grows (towards p) f f'.
Proof.
  unfold mkdir_parents. intros H. apply mkdir_up_grows in H.
  by rewrite rev_involutive in H.
Qed.

Lemma mkdir_exist_ok_is_dir (f f' : FS) (p : Path) :
  mkdir_exist_ok f p = (inr tt, f') → is_dir f' p = true.
Proof.
  unfold mkdir_exist_ok. destruct (os_mkdir f p) as [[]|g] eqn:E.
  - done.
  - destruct (is_dir f p) eqn:D; intros [= <-]; done.
  - destruct (is_dir f p) eqn:D; intros [= <-]; done.
  - intros [= <-]. apply os_mkdir_inr in E as (Hp & _ & _ & ->).
    unfold is_dir. rewrite node_at_lookup by done. by rewrite lookup_insert_eq.
Qed.

Lemma mkdir_up_is_dir (rp : list string) (f f' : FS) :
  mkdir_up f rp = (inr tt, f') → is_dir f' (rev rp) = true.
Proof.
  destruct rp as [|c rq]; simpl mkdir_up.
  - done.
  - destruct (os_mkdir f (rev rq ++ [c])) as [[]|g] eqn:E.
    + destruct (mkdir_up f rq) as [[e|[]] f1]; [done|].
      apply mkdir_exist_ok_is_dir.
    + destruct (is_dir f _) eqn:D; intros [= <-]; done.
    + destruct (is_dir f _) eqn:D; intros [= <-]; done.
    + intros [= <-]. apply os_mkdir_inr in E as (Hp & _ & _ & ->).
      unfold is_dir. rewrite node_at_lookup by done. by rewrite lookup_insert_eq.
Qed.

Lemma mkdir_parents_is_dir (f f' : FS) (p : Path) :
  mkdir_parents f p = (inr tt, f') → is_dir f' p = true.
Proof.
  unfold mkdir_parents. intros H. apply mkdir_up_is_dir in H.
  by rewrite rev_involutive in H.
Qed.

Lemma tree_insert (f : FS) (p : Path) :
  tree f → p ≠ [] → node_at f (parent p) = Some Dir → tree (<[p := Dir]> f).
Proof.
  intros Hf Hp Hpar q n Hq. rewrite lookup_insert. case_decide as E.
  - subst q. intros _. destruct (parent p) as [|d r] eqn:Er; [done|].
    rewrite <- Er in *. rewrite node_at_lookup in * by (rewrite Er; done).
    rewrite lookup_insert_ne; [done|]. intros Heq. by apply (parent_shorter p).
  - intros Hn. pose proof (Hf q n Hq Hn) as Hd.
    destruct (parent q) as [|d r] eqn:Er; [done|].
    rewrite <- Er in *. rewrite node_at_lookup in * by (rewrite Er; done).
    rewrite lookup_insert. case_decide; done.
Qed.

Lemma os_mkdir_tree (f f' : FS) (p : Path) :
  tree f → os_mkdir f p = inr f' → tree f'.
Proof.
  intros Hf E. apply os_mkdir_inr in E as (Hp & Hpar & _ & ->).
  by apply tree_insert.
Qed.

Lemma mkdir_exist_ok_tree (f f' : FS) (p : Path) r :
  tree f → mkdir_exist_ok f p = (r, f') → tree f'.
Proof.
  intros Hf. unfold mkdir_exist_ok. destruct (os_mkdir f p) as [[]|g] eqn:E.
  - by intros [= _ <-].
  - destruct (is_dir f p); by intros [= _ <-].
  - destruct (is_dir f p); by intros [= _ <-].
  - intros [= _ <-]. by eapply os_mkdir_tree.
Qed.

Lemma mkdir_up_tree (rp : list string) : ∀ (f f' : FS) r,
  tree f → mkdir_up f rp = (r, f') → tree f'.
Proof.
  induction rp as [|c rq IH]; intros f f' r Hf; simpl mkdir_up.
  - by intros [= _ <-].
  - destruct (os_mkdir f (rev rq ++ [c])) as [[]|g] eqn:E.
    + destruct (mkdir_up f rq) as [[e|[]] f1] eqn:E1.
      * intros [= _ <-]. by eapply IH.
      * intros E2. eapply mkdir_exist_ok_tree; [|exact E2]. by eapply IH.
    + destruct (is_dir f _); by intros [= _ <-].
    + destruct (is_dir f _); by intros [= _ <-].
    + intros [= _ <-]. by eapply os_mkdir_tree.
Qed.

Lemma mkdir_parents_tree (f f' : FS) (p : Path) r :
  tree f → mkdir_parents f p = (r, f') → tree f'.
Proof. unfold mkdir_parents. intros Hf H. by eapply mkdir_up_tree. Qed.

(** In a tree, whatever exists sits below directories only. *)
Lemma tree_ancestors (f : FS) (p : Path) :
  tree f → ∀ n, node_at f p = Some n →
  ∀ q, q `prefix_of` p → q ≠ p → is_dir f q = true.
Proof.
  intros Hf. induction p as [|c p IH] using rev_ind; intros n Hn q Hq Hne.
  - apply prefix_nil_inv in Hq. done.
  - apply prefix_snoc_inv in Hq as [->|Hq]; [done|].
    assert (Hpar : node_at f p = Some Dir).
    { rewrite node_at_lookup in Hn by (by destruct p).
      apply Hf in Hn; [|by destruct p]. by rewrite parent_snoc in Hn. }
    destruct (decide (q = p)) as [->|Hqp].
    + unfold is_dir. by rewrite Hpar.
    + by eapply IH.
Qed.

Lemma tree_dir_above (f : FS) (p q : Path) :
  tree f → is_dir f p = true → q `prefix_of` p → is_dir f q = true.
Proof.
  intros Hf Hd Hq. destruct (decide (q = p)) as [->|Hne]; [done|].
  unfold is_dir in Hd. destruct (node_at f p) as [n|] eqn:E; [|done].
  by eapply tree_ancestors.
Qed.

End MkdirFacts.

(** ** Running the module body *)

Ltac unfold_monad :=
  unfold mbind, M_bind, mret, M_ret, raise, print, logger_info, emit, with_fs, mkdir.

Section ModuleLoad.

Variable cfg : Config.

(** Once the asset directory is made, [llama.cpp] is a directory: the
    first check of the module body cannot fail. *)
Lemma assets_made_llama_is_dir (f f1 : FS) :
  tree f →
  mkdir_parents f (ANDROID_ASSETS_DIR cfg) = (inr tt, f1) →
  is_dir f1 (LLAMA_CPP_DIR cfg) = true.
Proof.
  intros Hf E. apply (tree_dir_above f1 (ANDROID_ASSETS_DIR cfg)).
  - by eapply mkdir_parents_tree.
  - by apply mkdir_parents_is_dir in E.
  - rewrite ANDROID_ASSETS_DIR_eq. by apply prefix_app_r.
Qed.

(** Making the asset directory does not make the quantizer binary. *)
Lemma assets_made_quant_bin (f f1 : FS) r :
  mkdir_parents f (ANDROID_ASSETS_DIR cfg) = (r, f1) →
  exists_ f (quant_bin cfg) = false → exists_ f1 (quant_bin cfg) = false.
Proof.
  intros E. apply mkdir_parents_grows in E as [_ Hnew].
  unfold exists_. rewrite !node_at_lookup
    by (rewrite quant_bin_eq, LLAMA_CPP_DIR_eq; by destruct (ROOT_DIR cfg)).
  destruct (f !! quant_bin cfg) eqn:E0; [done|]. intros _.
  destruct (f1 !! quant_bin cfg) eqn:E1; [|done].
  destruct (Hnew _ _ E0 E1) as (_ & _ & Hp).
  by apply quant_bin_not_under_assets in Hp.
Qed.

End ModuleLoad.

(** ** Symbolic execution of a run *)

(** Split a run recorded in [H] into its straight-line cases: one per way
    an [mkdir], a check, the download or a spawned process can end. *)
Ltac exec_step H :=
  match type of H with
  | context [mkdir_parents ?f ?p] =>
      let e := fresh "e" in let g := fresh "f" in let E := fresh "Emk" in
      destruct (mkdir_parents f p) as [[e|[]] g] eqn:E
  | context [negb (is_dir ?f ?p)] =>
      let D := fresh "Edir" in destruct (is_dir f p) eqn:D
  | context [negb (exists_ ?f ?p)] =>
      let D := fresh "Eex" in destruct (exists_ f p) eqn:D
  | context [hub_snapshot_download ?env ?a ?b ?f] =>
      let why := fresh "why" in let g := fresh "f" in let E := fresh "Ehub" in
      destruct (hub_snapshot_download env a b f) as [[|why] g] eqn:E
  | context [os_spawn ?env ?c ?d ?f] =>
      let rc := fresh "rc" in let g := fresh "f" in let E := fresh "Esp" in
      destruct (os_spawn env c d f) as [[rc|] g] eqn:E
  | context [Z.eqb ?rc 0] =>
      let Hz := fresh "Erc" in destruct (Z.eqb_spec rc 0) as [Hz|Hz]
  end.

Ltac exec H :=
  unfold script, main, module_load, run, snapshot_download, subprocess_run_check in H;
  unfold mbind, M_bind, mret, M_ret, raise, print, logger_info, emit, with_fs, mkdir in H;
  cbn [fs trace boot negb app] in H;
  repeat (exec_step H; cbn [fs trace boot negb app] in H);
  injection H as <- <-; cbn [fs trace].

(** ** Which exception is which *)

Section Exceptions.

Lemma mkdir_exist_ok_raises (f f' : FS) (p : Path) (e : exn) :
  mkdir_exist_ok f p = (inl e, f') → ∃ k q, e = os_error k q.
Proof.
  unfold mkdir_exist_ok. destruct (os_mkdir f p) as [k|g]; [|done].
  destruct k.
  - intros [= <- _]. by exists ENOENT, p.
  - destruct (is_dir f p); [done|]. intros [= <- _]. by exists ENOTDIR, p.
  - destruct (is_dir f p); [done|]. intros [= <- _]. by exists EEXIST, p.
Qed.

Lemma mkdir_up_raises (rp : list string) : ∀ (f f' : FS) (e : exn),
  mkdir_up f rp = (inl e, f') → ∃ k q, e = os_error k q.
Proof.
  induction rp as [|c rq IH]; intros f f' e; simpl mkdir_up.
  - done.
  - destruct (os_mkdir f (rev rq ++ [c])) as [k|g]; [|done].
    destruct k.
    + destruct (mkdir_up f rq) as [[e1|[]] f1] eqn:E1.
      * intros [= <- _]. by eapply IH.
      * apply mkdir_exist_ok_raises.
    + destruct (is_dir f _); [done|]. intros [= <- _]. by exists ENOTDIR, (rev rq ++ [c]).
    + destruct (is_dir f _); [done|]. intros [= <- _]. by exists EEXIST, (rev rq ++ [c]).
Qed.

Lemma mkdir_parents_raises (f f' : FS) (p : Path) (e : exn) :
  mkdir_parents f p = (inl e, f') → ∃ k q, e = os_error k q.
Proof. apply mkdir_up_raises. Qed.

Variable cfg : Config.

Lemma os_error_not_preflight k q : ¬ preflight_error cfg (os_error k q).
Proof. intros [H|H]; destruct k; discriminate H. Qed.

End Exceptions.

Lemma dir_exists_mkdir_noop (f : FS) (p : Path) :
  tree f → is_dir f p = true → mkdir_parents f p = (inr tt, f).
Proof.
  intros Hf Hd. unfold mkdir_parents.
  destruct (rev p) as [|c rq] eqn:Er.
  - apply (f_equal (@rev string)) in Er. rewrite rev_involutive in Er. by subst p.
  - apply (f_equal (@rev string)) in Er. rewrite rev_involutive in Er. simpl in Er.
    simpl mkdir_up. rewrite <- Er.
    assert (Hp : p ≠ []) by (rewrite Er; by destruct (rev rq)).
    assert (Hn : f !! p = Some Dir).
    { unfold is_dir in Hd. rewrite node_at_lookup in Hd by done.
      by destruct (f !! p) as [[]|]. }
    unfold os_mkdir. destruct p as [|d p']; [done|].
    rewrite (Hf _ _ Hp Hn), Hn, Hd. done.
Qed.

Lemma tree_check_sound (f : FS) : tree_check f = true → tree f.
Proof.
  unfold tree_check. rewrite forallb_forall. intros H p n Hp Hl.
  apply elem_of_map_to_list, list_elem_of_In, H in Hl. simpl in Hl.
  destruct p; [done|]. unfold is_dir in Hl.
  by destruct (node_at f (parent (s :: p))) as [[]|].
Qed.

(** ** The first check of the module body *)

(** C3 (the code departs from it).  A missing tool-chain directory ought to
    be reported as such.  On a checkout with no [llama.cpp] the run makes
    the asset directory first, and [llama.cpp] with it, so the directory
    check passes and the run ends with the message about the quantizer
    binary; the message about [llama.cpp] is not the one raised. *)
Theorem missing_toolchain_reported_as_missing_binary (env : Env) :
  let r := script Sample.cfg env (boot Sample.bare) in
  is_dir Sample.bare (LLAMA_CPP_DIR Sample.cfg) = false ∧
  r.1 = inl (FileNotFoundError
    "llama-quantize binary not found. Build llama.cpp (`cd /home/dev/Quantized-LLM/llama.cpp && cmake -B build && cmake --build build --config Release`).") ∧
  llama_cpp_missing Sample.cfg
    = "llama.cpp not found at /home/dev/Quantized-LLM/llama.cpp" ∧
  r.1 ≠ inl (FileNotFoundError (llama_cpp_missing Sample.cfg)) ∧
  is_dir (fs r.2) (LLAMA_CPP_DIR Sample.cfg) = true ∧
  trace r.2 = [EPrint "ROOT_DIR: /home/dev/Quantized-LLM"].
Proof.
  vm_compute. repeat split; intros H; discriminate H.
Qed.

(** With [llama.cpp] in place and the binary missing, the second check
    does what it is written for: the run stops there, with the message
    that carries the build command, before anything else happens. *)
Lemma missing_binary_reported (cfg : Config) (env : Env) (f : FS) r w' :
  tree f →
  is_dir f (ANDROID_ASSETS_DIR cfg) = true →
  exists_ f (quant_bin cfg) = false →
  script cfg env (boot f) = (r, w') →
  r = inl (FileNotFoundError
             ("llama-quantize binary not found. Build llama.cpp (`"
                +:+ build_command cfg +:+ "`).")) ∧
  w' = {| fs := f; trace := [root_line cfg] |}.
Proof.
  intros Hf Hd Hq H. unfold script, module_load in H.
  unfold mbind, M_bind, mret, M_ret, raise, print, emit, with_fs, mkdir in H.
  cbn [fs trace boot app] in H.
  rewrite (dir_exists_mkdir_noop _ _ Hf Hd) in H. cbn [fs trace negb] in H.
  rewrite (tree_dir_above f (ANDROID_ASSETS_DIR cfg) (LLAMA_CPP_DIR cfg) Hf Hd) in H
    by (rewrite ANDROID_ASSETS_DIR_eq; by apply prefix_app_r).
  cbn [fs trace negb] in H. rewrite Hq in H. cbn [negb] in H.
  by injection H as <- <-.
Qed.

(** In a tree the directory check never fails, whatever the run. *)
Lemma llama_cpp_check_never_fires (cfg : Config) (env : Env) (f : FS) r w' :
  tree f →
  script cfg env (boot f) = (r, w') →
  r ≠ inl (FileNotFoundError (llama_cpp_missing cfg)).
Proof.
  intros Hf H Hr. exec H.
  all: try discriminate Hr.
  all: try (injection Hr as ->;
            match goal with
            | E : mkdir_parents _ _ = (inl _, _) |- _ =>
                apply mkdir_parents_raises in E as (k & q & E);
                by destruct k
            end).
  by rewrite (assets_made_llama_is_dir cfg f f0 Hf Emk) in Edir.
Qed.

(** Close a case whose exception cannot be the one assumed. *)
Ltac wrong_exception :=
  match goal with
  | H : inr _ = inl _ |- _ => discriminate H
  | H : preflight_error _ _ |- _ =>
      solve [ destruct H as [H|H]; discriminate H ]
  | E : mkdir_parents _ _ = (inl _, _), H : preflight_error _ _ |- _ =>
      let k := fresh "k" in let q := fresh "q" in
      apply mkdir_parents_raises in E as (k & q & ->);
      by apply os_error_not_preflight in H
  end.

(** C9, amended.  Whenever a run ends with one of the two preflight
    errors, the asset directory is a directory afterwards and nothing but
    the first print has happened; the file system is the one the run
    started from exactly when the asset directory was already there. *)
Theorem asset_dir_made_before_preflight
    (cfg : Config) (env : Env) (f : FS) (r : exn + unit) (w' : World) (e : exn) :
  tree f →
  script cfg env (boot f) = (r, w') →
  r = inl e →
  preflight_error cfg e →
  is_dir (fs w') (ANDROID_ASSETS_DIR cfg) = true ∧
  (fs w' = f ↔ is_dir f (ANDROID_ASSETS_DIR cfg) = true) ∧
  trace w' = [root_line cfg].
Proof.
  intros Hf H Hr He. exec H.
  all: try (injection Hr as <-); try wrong_exception.
  all: pose proof (mkdir_parents_is_dir _ _ _ Emk) as Hd.
  all: split; [done|]; split; [|done].
  all: split; [by intros <-|].
  all: intros Hd0; rewrite (dir_exists_mkdir_noop _ _ Hf Hd0) in Emk; congruence.
Qed.

Lemma tree_cloned : tree Sample.cloned.
Proof. apply tree_check_sound. vm_compute. reflexivity. Defined.

Lemma asset_dir_made_before_preflight_witness :
  let w' := (script Sample.cfg Sample.good (boot Sample.cloned)).2 in
  is_dir (fs w') (ANDROID_ASSETS_DIR Sample.cfg) = true ∧
  (fs w' = Sample.cloned ↔
     is_dir Sample.cloned (ANDROID_ASSETS_DIR Sample.cfg) = true) ∧
  trace w' = [root_line Sample.cfg].
Proof.
  apply (asset_dir_made_before_preflight Sample.cfg Sample.good Sample.cloned
           _ _ (FileNotFoundError (quant_bin_missing Sample.cfg))
           tree_cloned (surjective_pairing _)).
  - vm_compute. reflexivity.
  - right. reflexivity.
Defined.

(** ** Configuration errors and external calls *)

(** C2, as stated, fails: with the converter script absent the error is
    raised only after the hub download has been made. *)
Lemma converter_script_checked_after_download :
  let r := script Sample.cfg Sample.good (boot Sample.built_no_script) in
  exists_ Sample.built_no_script (hf_to_gguf_convert_script Sample.cfg) = false ∧
  r.1 = inl (FileNotFoundError (convert_script_missing Sample.cfg)) ∧
  external_calls r.2 =
    [EDownload "Qwen/Qwen2.5-1.5B-Instruct"
       "/home/dev/Quantized-LLM/llama.cpp/artifacts/hf_model" Fetched].
Proof. vm_compute. repeat split. Qed.

(** C2, amended.  A run that starts without the quantizer binary ends in an
    exception before any external call: the binary-missing error, unless
    making the asset directory already raised.  The converter-script error
    is raised with exactly one external call behind it, the successful hub
    download, and before any process is spawned. *)
Theorem config_errors_and_external_calls
    (cfg : Config) (env : Env) (f : FS) (r : exn + unit) (w' : World) :
  tree f →
  script cfg env (boot f) = (r, w') →
  (exists_ f (quant_bin cfg) = false →
     external_calls w' = [] ∧
     ∃ e, r = inl e ∧
          (e = FileNotFoundError (quant_bin_missing cfg) ∨
           mkdir_parents f (ANDROID_ASSETS_DIR cfg) = (inl e, fs w'))) ∧
  (r = inl (FileNotFoundError (convert_script_missing cfg)) →
     external_calls w' = [EDownload (MODEL_ID cfg) (str (hf_dir cfg)) Fetched] ∧
     spawned w' = []).
Proof.
  intros Hf H. split.
  - intros Hq. exec H.
    all: try (rewrite (assets_made_quant_bin cfg f f0 _ Emk Hq) in Eex; discriminate Eex).
    all: try (rewrite (assets_made_llama_is_dir cfg f f0 Hf Emk) in Edir; discriminate Edir).
    all: (split; [reflexivity|]); eexists; split; [reflexivity|]; auto.
  - intros Hr. exec H.
    all: try discriminate Hr.
    all: try (injection Hr as Hr;
              match goal with
              | E : mkdir_parents _ _ = (inl _, _) |- _ =>
                  apply mkdir_parents_raises in E as (k & q & ->); by destruct k
              end).
    done.
Qed.

Lemma tree_built_no_script : tree Sample.built_no_script.
Proof. apply tree_check_sound. vm_compute. reflexivity. Defined.

Lemma config_errors_and_external_calls_witness :
  let w1 := (script Sample.cfg Sample.good (boot Sample.cloned)).2 in
  let w2 := (script Sample.cfg Sample.good (boot Sample.built_no_script)).2 in
  external_calls w1 = [] ∧
  external_calls w2 =
    [EDownload (MODEL_ID Sample.cfg) (str (hf_dir Sample.cfg)) Fetched] ∧
  spawned w2 = [].
Proof.
  intros w1 w2. split.
  - refine (proj1 (proj1 (config_errors_and_external_calls Sample.cfg Sample.good
                            Sample.cloned _ _ tree_cloned
                            (surjective_pairing _)) _)).
    vm_compute. reflexivity.
  - refine (proj2 (config_errors_and_external_calls Sample.cfg Sample.good
                     Sample.built_no_script _ _ tree_built_no_script
                     (surjective_pairing _)) _).
    vm_compute. reflexivity.
Defined.

(** ** The command runner *)

(** Take a membership in an explicit trace apart, one event at a time. *)
Ltac pick_event H :=
  repeat (apply elem_of_cons in H as [H|H]; [try discriminate H|]);
  try (apply elem_of_nil in H; destruct H).

Section Runner.

Variables (cfg : Config) (env : Env).

Lemma run_spec (cmd : list string) (cwd : option string) (w : World) :
  let o := (os_spawn env cmd cwd (fs w)).1 in
  let res := run env cmd cwd w in
  trace res.2 = trace w ++ [run_line cmd; ESpawn cmd cwd o] ∧
  fs res.2 = (os_spawn env cmd cwd (fs w)).2 ∧
  (res.1 = inr tt ↔ o = Exited 0) ∧
  (o ≠ Exited 0 →
     res.1 = inl (match o with
                  | Exited rc => CalledProcessError rc cmd
                  | NotLaunched => LaunchError cmd
                  end)).
Proof.
  unfold run, subprocess_run_check. unfold_monad. cbn [fs trace].
  destruct (os_spawn env cmd cwd (fs w)) as [[rc|] g]; cbn [fst snd fs trace].
  - destruct (Z.eqb_spec rc 0) as [->|Hrc]; cbn [fst snd fs trace].
    + rewrite <- app_assoc. done.
    + rewrite <- app_assoc. repeat split; try done.
      intros [= ?]. done.
  - rewrite <- app_assoc. done.
Qed.

End Runner.

(** C4.  [run] logs the joined command line and then spawns the process;
    it returns exactly when the process exits with status zero and raises
    otherwise.  In a whole run, a spawned process that does not exit with
    zero is the last thing that happens: the run ends in an exception, and
    when that process is the converter the quantizer is never spawned. *)
Theorem run_logs_spawns_and_failure_stops (cfg : Config) (env : Env) :
  (∀ cmd cwd w,
     let o := (os_spawn env cmd cwd (fs w)).1 in
     let res := run env cmd cwd w in
     trace res.2 = trace w ++ [run_line cmd; ESpawn cmd cwd o] ∧
     (res.1 = inr tt ↔ o = Exited 0) ∧
     (o ≠ Exited 0 → ∃ e, res.1 = inl e)) ∧
  (∀ f r w' c d o,
     script cfg env (boot f) = (r, w') →
     ESpawn c d o ∈ trace w' →
     o ≠ Exited 0 →
     last (trace w') = Some (ESpawn c d o) ∧
     (∃ e, r = inl e) ∧
     (c = cmd_convert cfg → ∀ d' o', ESpawn (cmd_quant cfg) d' o' ∉ trace w')).
Proof.
  split.
  - intros cmd cwd w. destruct (run_spec env cmd cwd w) as (Ht & _ & Hiff & Hne).
    repeat split; try apply Hiff; try done.
    intros Ho. eexists. by apply Hne.
  - intros f r w' c d o H Hin Ho. exec H; pick_event Hin.
    all: injection Hin as -> -> ->; try (subst; done).
    all: split; [reflexivity|]; split; [by eexists|].
    all: intros Hc d' o' Hin'; pick_event Hin'.
    all: try discriminate Hc.
    all: injection Hin' as Hq _ _; discriminate Hq.
Qed.

(** ** What the two processes are given *)

(** C5.  Every process a run spawns is spawned without a working directory
    and with one of two argument lists: the interpreter, the converter
    script, the snapshot directory, [--outfile], the f16 path, [--outtype],
    [f16]; or the quantizer binary, the f16 path, the output path and
    [Q4_K_M].  A run that returns has spawned exactly these two, the
    converter first, and both exited with zero. *)
Theorem external_processes_argument_lists
    (cfg : Config) (env : Env) (f : FS) (r : exn + unit) (w' : World) :
  let convert :=
    [ sys_executable cfg; str (LLAMA_CPP_DIR cfg // "convert_hf_to_gguf.py");
      str (hf_dir cfg); "--outfile"; str (GGUF_F16_MODEL_PATH cfg);
      "--outtype"; "f16" ] in
  let quantize :=
    [ str (quant_bin cfg); str (GGUF_F16_MODEL_PATH cfg);
      str (GGUF_Q4_MODEL_PATH cfg); "Q4_K_M" ] in
  script cfg env (boot f) = (r, w') →
  (∀ c d o, ESpawn c d o ∈ trace w' → d = None ∧ (c = convert ∨ c = quantize)) ∧
  (∃ o1 o2, spawned w' `prefix_of` [ESpawn convert None o1; ESpawn quantize None o2]) ∧
  (r = inr tt →
     spawned w' = [ESpawn convert None (Exited 0); ESpawn quantize None (Exited 0)]).
Proof.
  intros convert quantize H. exec H.
  all: split; [intros c d o Hin; pick_event Hin;
                try (injection Hin as -> -> ->; auto)|].
  all: split; [|try (intros Hr; discriminate Hr)].
  all: try (exists NotLaunched, NotLaunched; by apply prefix_nil).
  all: try (eexists _, NotLaunched; by eexists [_]).
  all: try (eexists _, _; by eexists []).
  intros _. subst. reflexivity.
Qed.

Lemma tree_ready : tree Sample.ready.
Proof. apply tree_check_sound. vm_compute. reflexivity. Defined.

Lemma external_processes_argument_lists_witness :
  spawned (script Sample.cfg Sample.good (boot Sample.ready)).2 =
    [ ESpawn (cmd_convert Sample.cfg) None (Exited 0);
      ESpawn (cmd_quant Sample.cfg) None (Exited 0) ].
Proof.
  refine (proj2 (proj2 (external_processes_argument_lists Sample.cfg Sample.good
                          Sample.ready _ _ (surjective_pairing _))) _).
  vm_compute. reflexivity.
Defined.

(** ** The end-to-end run *)

Lemma configured_f16_path (root : Path) (exe : string) :
  GGUF_F16_MODEL_PATH (configured root exe)
  = root ++ ["llama.cpp"; "artifacts"; gguf_name].
Proof.
  unfold GGUF_F16_MODEL_PATH, ARTIFICATS_DIR, LLAMA_CPP_DIR, div. simpl.
  by rewrite <- !app_assoc.
Qed.

Lemma configured_q4_path (root : Path) (exe : string) :
  GGUF_Q4_MODEL_PATH (configured root exe)
  = root ++ ["llama.cpp"; "examples"; "llama.android"; "app"; "src"; "main";
             "assets"; "models"; gguf_name].
Proof.
  unfold GGUF_Q4_MODEL_PATH, ANDROID_ASSETS_DIR, div. simpl.
  by rewrite <- !app_assoc.
Qed.

(** C1.  With the model name of the repository, a run that returns has
    fetched [Qwen/Qwen2.5-1.5B-Instruct] and leaves a file named
    [Qwen2.5-1.5B-Instruct_Q4_K_M.gguf] in the asset directory and a file
    of the same name in [artifacts/] under [llama.cpp], provided the
    converter and the quantizer write where they are told to. *)
Theorem full_run_leaves_both_files
    (root : Path) (exe : string) (env : Env) (f : FS) (r : exn + unit) (w' : World) :
  let cfg := configured root exe in
  converter_writes env (GGUF_F16_MODEL_PATH cfg) →
  quantizer_writes env (GGUF_F16_MODEL_PATH cfg) (GGUF_Q4_MODEL_PATH cfg) →
  script cfg env (boot f) = (r, w') →
  r = inr tt →
  EDownload "Qwen/Qwen2.5-1.5B-Instruct" (str (hf_dir cfg)) Fetched ∈ trace w' ∧
  node_at (fs w') (ANDROID_ASSETS_DIR cfg ++ [gguf_name]) = Some File ∧
  node_at (fs w') (ARTIFICATS_DIR cfg ++ [gguf_name]) = Some File ∧
  ANDROID_ASSETS_DIR cfg ++ [gguf_name]
    = root ++ ["llama.cpp"; "examples"; "llama.android"; "app"; "src"; "main";
               "assets"; "models"; "Qwen2.5-1.5B-Instruct_Q4_K_M.gguf"] ∧
  ARTIFICATS_DIR cfg ++ [gguf_name]
    = root ++ ["llama.cpp"; "artifacts"; "Qwen2.5-1.5B-Instruct_Q4_K_M.gguf"].
Proof.
  intros cfg Hconv Hquant H Hr.
  assert (Hq4 : GGUF_Q4_MODEL_PATH cfg = ANDROID_ASSETS_DIR cfg ++ [gguf_name])
    by reflexivity.
  assert (Hf16 : GGUF_F16_MODEL_PATH cfg = ARTIFICATS_DIR cfg ++ [gguf_name])
    by reflexivity.
  assert (E1 : ANDROID_ASSETS_DIR cfg ++ [gguf_name]
               = root ++ ["llama.cpp"; "examples"; "llama.android"; "app"; "src";
                          "main"; "assets"; "models"; gguf_name])
    by (rewrite <- Hq4; apply configured_q4_path).
  assert (E2 : ARTIFICATS_DIR cfg ++ [gguf_name]
               = root ++ ["llama.cpp"; "artifacts"; gguf_name])
    by (rewrite <- Hf16; apply configured_f16_path).
  rewrite <- Hq4, <- Hf16 in *.
  exec H; try discriminate Hr. subst.
  apply Hconv in Esp. apply Hquant in Esp0 as [Hout Hin].
  split; [|by auto].
  set_solver.
Qed.

Lemma good_converter_writes :
  converter_writes Sample.good (GGUF_F16_MODEL_PATH Sample.cfg).
Proof.
  intros exe script src cwd f f' H.
  unfold Sample.cfg in *. rewrite configured_f16_path in *.
  simpl in H. injection H as <-.
  simpl. apply lookup_insert_eq.
Qed.

Lemma good_quantizer_writes :
  quantizer_writes Sample.good (GGUF_F16_MODEL_PATH Sample.cfg)
    (GGUF_Q4_MODEL_PATH Sample.cfg).
Proof.
  intros bin scheme cwd f f' H.
  unfold Sample.cfg in *. rewrite configured_f16_path, configured_q4_path in *.
  simpl in H. injection H as <-.
  simpl. split; [apply lookup_insert_eq|].
  intros Hin. by rewrite lookup_insert_ne.
Qed.

Lemma full_run_leaves_both_files_witness :
  let w' := (script Sample.cfg Sample.good (boot Sample.ready)).2 in
  node_at (fs w')
    ["home"; "dev"; "Quantized-LLM"; "llama.cpp"; "examples"; "llama.android";
     "app"; "src"; "main"; "assets"; "models";
     "Qwen2.5-1.5B-Instruct_Q4_K_M.gguf"] = Some File ∧
  node_at (fs w')
    ["home"; "dev"; "Quantized-LLM"; "llama.cpp"; "artifacts";
     "Qwen2.5-1.5B-Instruct_Q4_K_M.gguf"] = Some File.
Proof.
  pose proof (full_run_leaves_both_files Sample.here "/usr/bin/python3"
                Sample.good Sample.ready _ _
                good_converter_writes good_quantizer_writes
                (surjective_pairing _)) as H.
  destruct H as (_ & Hq4 & Hf16 & _ & _).
  - vm_compute. reflexivity.
  - split; [exact Hq4 | exact Hf16].
Defined.

(** ** What the run itself writes *)

(** C6, as stated, fails: on a built checkout the module body makes
    [artifacts] inside [llama.cpp]. *)
Lemma module_body_writes_under_toolchain :
  let f' := fs (module_load Sample.cfg (boot Sample.ready)).2 in
  let p := LLAMA_CPP_DIR Sample.cfg ++ ["artifacts"] in
  LLAMA_CPP_DIR Sample.cfg `prefix_of` p ∧
  Sample.ready !! p = None ∧
  f' !! p = Some Dir.
Proof.
  split; [by exists ["artifacts"]|]. vm_compute. split; reflexivity.
Qed.

Lemma prefix_app_cons_cases (a : Path) (c : string) (t q : Path) :
  q `prefix_of` a ++ c :: t → q `prefix_of` a ∨ a ++ [c] `prefix_of` q.
Proof.
  revert q. induction a as [|x a IH]; intros q Hq.
  - destruct q as [|y q]; [left; done|]. right.
    apply prefix_cons_inv_1 in Hq as ->. apply prefix_cons, prefix_nil.
  - destruct q as [|y q]; [left; apply prefix_nil|]. simpl in Hq.
    pose proof (prefix_cons_inv_1 _ _ _ _ Hq) as ->.
    apply prefix_cons_inv_2, IH in Hq as [Hq|Hq].
    + left. by apply prefix_cons.
    + right. simpl. by apply prefix_cons.
Qed.

Section OwnWrites.

Variable cfg : Config.

Lemma towards_assets q : towards (ANDROID_ASSETS_DIR cfg) q → own_target cfg q.
Proof. by left. Qed.

Lemma towards_hf_dir q : towards (hf_dir cfg) q → own_target cfg q.
Proof. by right. Qed.

Lemma towards_artifacts q : towards (ARTIFICATS_DIR cfg) q → own_target cfg q.
Proof.
  intros H. right. unfold towards in H. etrans; [exact H|].
  rewrite hf_dir_eq, ARTIFICATS_DIR_eq. exists ["hf_model"]. by rewrite <- app_assoc.
Qed.

(** With the directory of the script in place, whatever is new on the
    way to one of the targets lies at or below [llama.cpp]. *)
Lemma own_target_below_llama (f : FS) (q : Path) :
  tree f → is_dir f (ROOT_DIR cfg) = true →
  q ≠ [] → f !! q = None → own_target cfg q →
  LLAMA_CPP_DIR cfg `prefix_of` q.
Proof.
  intros Hf Hroot Hne Hq Ht.
  assert (Hcase : q `prefix_of` ROOT_DIR cfg ∨ LLAMA_CPP_DIR cfg `prefix_of` q).
  { rewrite LLAMA_CPP_DIR_eq. destruct Ht as [Ht|Ht].
    - rewrite ANDROID_ASSETS_DIR_eq, LLAMA_CPP_DIR_eq, <- app_assoc in Ht.
      by apply prefix_app_cons_cases in Ht.
    - rewrite hf_dir_eq, LLAMA_CPP_DIR_eq, <- app_assoc in Ht.
      by apply prefix_app_cons_cases in Ht. }
  destruct Hcase as [Hup|Hdown]; [|done].
  pose proof (tree_dir_above f _ q Hf Hroot Hup) as Hd.
  unfold is_dir in Hd. rewrite node_at_lookup, Hq in Hd by done. done.
Qed.

End OwnWrites.

(** C6, amended.  Setting aside what the hub and the two processes write,
    a run changes and removes no entry of the file system it started from,
    and every entry it adds is a directory at or below [llama.cpp], on the
    way to the asset directory or to [artifacts/hf_model]. *)
Theorem own_writes_add_directories_only
    (cfg : Config) (env : Env) (f : FS) (r : exn + unit) (w' : World) :
  tree f →
  is_dir f (ROOT_DIR cfg) = true →
  inert env →
  script cfg env (boot f) = (r, w') →
  (∀ q n, f !! q = Some n → fs w' !! q = Some n) ∧
  (∀ q n, f !! q = None → fs w' !! q = Some n →
     n = Dir ∧
     LLAMA_CPP_DIR cfg `prefix_of` q ∧
     (q `prefix_of` ANDROID_ASSETS_DIR cfg ∨ q `prefix_of` hf_dir cfg)).
Proof.
  intros Hf Hroot [Hhub Hsp] H.
  assert (G : grows (own_target cfg) f (fs w')).
  { exec H.
    all: repeat match goal with
           | E : mkdir_parents _ (ANDROID_ASSETS_DIR _) = _ |- _ =>
               apply mkdir_parents_grows, (grows_mono _ _ _ _ (towards_assets cfg)) in E
           | E : mkdir_parents _ (ARTIFICATS_DIR _) = _ |- _ =>
               apply mkdir_parents_grows, (grows_mono _ _ _ _ (towards_artifacts cfg)) in E
           | E : mkdir_parents _ (hf_dir _) = _ |- _ =>
               apply mkdir_parents_grows, (grows_mono _ _ _ _ (towards_hf_dir cfg)) in E
           | E : hub_snapshot_download _ ?a ?b ?g = (_, _) |- _ =>
               let K := fresh in
               pose proof (Hhub a b g) as K; rewrite E in K; simpl in K; subst; clear E
           | E : os_spawn _ ?c ?d ?g = (_, _) |- _ =>
               let K := fresh in
               pose proof (Hsp c d g) as K; rewrite E in K; simpl in K; subst; clear E
           end.
    all: eauto using grows_trans. }
  destruct G as [Gold Gnew]. split; [exact Gold|].
  intros q n Hq Hq'. destruct (Gnew _ _ Hq Hq') as (-> & Hne & Ht).
  split; [done|]. split; [|exact Ht].
  by eapply own_target_below_llama.
Qed.

Lemma own_writes_add_directories_only_witness :
  let w' := (script Sample.cfg Sample.idle (boot Sample.ready)).2 in
  (∀ q n, Sample.ready !! q = Some n → fs w' !! q = Some n) ∧
  (∀ q n, Sample.ready !! q = None → fs w' !! q = Some n →
     n = Dir ∧
     LLAMA_CPP_DIR Sample.cfg `prefix_of` q ∧
     (q `prefix_of` ANDROID_ASSETS_DIR Sample.cfg ∨ q `prefix_of` hf_dir Sample.cfg)).
Proof.
  intros w'.
  eapply (own_writes_add_directories_only Sample.cfg Sample.idle Sample.ready).
  - exact tree_ready.
  - vm_compute. reflexivity.
  - split; reflexivity.
  - apply surjective_pairing.
Defined.

(** ** Exit status *)

(** C7, as stated, fails: when the converter exits with 3 the run ends
    with [CalledProcessError] and the interpreter exits with 1, not 3. *)
Lemma exit_status_is_not_the_converters :
  let r := (script Sample.cfg Sample.converter_fails (boot Sample.ready)).1 in
  r = inl (CalledProcessError 3 (cmd_convert Sample.cfg)) ∧
  exit_status r = 1%Z ∧
  exit_status r ≠ 3%Z.
Proof. vm_compute. repeat split; intros H; discriminate H. Qed.

(** C7, amended.  The exit status is 0 exactly when the run returns, which
    is exactly when the download and both processes succeeded, in that
    order; in every other case it is 1.  The return code of a failing
    process is carried by the exception, not by the exit status. *)
Theorem exit_status_zero_iff_all_stages
    (cfg : Config) (env : Env) (f : FS) (r : exn + unit) (w' : World) :
  script cfg env (boot f) = (r, w') →
  (exit_status r = 0%Z ↔ r = inr tt) ∧
  (r = inr tt ↔
     external_calls w' =
       [ EDownload (MODEL_ID cfg) (str (hf_dir cfg)) Fetched;
         ESpawn (cmd_convert cfg) None (Exited 0);
         ESpawn (cmd_quant cfg) None (Exited 0) ]) ∧
  (r ≠ inr tt → exit_status r = 1%Z) ∧
  (∀ c d rc, ESpawn c d (Exited rc) ∈ trace w' → rc ≠ 0%Z →
     r = inl (CalledProcessError rc c) ∧ exit_status r = 1%Z).
Proof.
  intros H. exec H.
  all: split; [split; [intros E; try discriminate E|intros E; try discriminate E]; reflexivity|].
  all: split; [split; intros E; try discriminate E; try reflexivity|].
  all: try (injection E as E; subst; done).
  all: try (subst; reflexivity).
  all: split; [try reflexivity; intros E; by destruct E|].
  all: intros c d rc' Hin Hrc; pick_event Hin.
  all: injection Hin as -> -> ->; subst; done.
Qed.

Lemma exit_status_zero_iff_all_stages_witness :
  let r := (script Sample.cfg Sample.converter_fails (boot Sample.ready)).1 in
  r = inl (CalledProcessError 3 (cmd_convert Sample.cfg)) ∧ exit_status r = 1%Z.
Proof.
  refine (proj2 (proj2 (proj2
    (exit_status_zero_iff_all_stages Sample.cfg Sample.converter_fails
       Sample.ready _ _ (surjective_pairing _)))) (cmd_convert Sample.cfg) None 3%Z _ _).
  - vm_compute. set_solver.
  - discriminate.
Defined.

(** ** Paths are fixed by the configuration *)

(** Whatever the file system and the outside world do, the external
    calls of a run, read with their arguments, are an initial part of one
    list that depends on the configuration alone: the download into the
    snapshot directory, the converter from the snapshot directory to the
    f16 path, the quantizer from the f16 path to the output path.  The
    three paths are given by the directory of the script and the model
    name. *)
Theorem paths_fixed_by_configuration (cfg : Config) (env : Env) (f : FS) :
  let snapshot := ROOT_DIR cfg ++ ["llama.cpp"; "artifacts"; "hf_model"] in
  let f16 :=
    (ROOT_DIR cfg ++ ["llama.cpp"; "artifacts"]) // (MODEL_NAME cfg +:+ "_Q4_K_M.gguf") in
  let q4 :=
    (ROOT_DIR cfg ++ ["llama.cpp"; "examples"; "llama.android"; "app"; "src";
                      "main"; "assets"; "models"])
      // (MODEL_NAME cfg +:+ "_Q4_K_M.gguf") in
  omap call_args (trace (script cfg env (boot f)).2) `prefix_of`
    [ ["Qwen/" +:+ MODEL_NAME cfg; str snapshot];
      [ sys_executable cfg;
        str (ROOT_DIR cfg ++ ["llama.cpp"; "convert_hf_to_gguf.py"]);
        str snapshot; "--outfile"; str f16; "--outtype"; "f16" ];
      [ str (ROOT_DIR cfg ++ ["llama.cpp"; "build"; "bin"; "llama-quantize"]);
        str f16; str q4; "Q4_K_M" ] ] ∧
  hf_dir cfg = snapshot ∧
  GGUF_F16_MODEL_PATH cfg = f16 ∧
  GGUF_Q4_MODEL_PATH cfg = q4.
Proof.
  intros snapshot f16 q4.
  assert (E1 : hf_dir cfg = snapshot).
  { rewrite hf_dir_eq, LLAMA_CPP_DIR_eq. unfold snapshot. by rewrite <- app_assoc. }
  assert (E2 : GGUF_F16_MODEL_PATH cfg = f16).
  { unfold GGUF_F16_MODEL_PATH, f16. rewrite ARTIFICATS_DIR_eq, LLAMA_CPP_DIR_eq.
    by rewrite <- app_assoc. }
  assert (E3 : GGUF_Q4_MODEL_PATH cfg = q4).
  { unfold GGUF_Q4_MODEL_PATH, q4.
    rewrite ANDROID_ASSETS_DIR_eq, LLAMA_CPP_DIR_eq. by rewrite <- app_assoc. }
  assert (E4 : quant_bin cfg = ROOT_DIR cfg ++ ["llama.cpp"; "build"; "bin"; "llama-quantize"]).
  { rewrite quant_bin_eq, LLAMA_CPP_DIR_eq. by rewrite <- app_assoc. }
  assert (E5 : hf_to_gguf_convert_script cfg
               = ROOT_DIR cfg ++ ["llama.cpp"; "convert_hf_to_gguf.py"]).
  { unfold hf_to_gguf_convert_script, div. rewrite LLAMA_CPP_DIR_eq. simpl.
    by rewrite <- app_assoc. }
  split; [|done].
  destruct (script cfg env (boot f)) as [r w'] eqn:H. exec H.
  all: unfold cmd_convert, cmd_quant, MODEL_ID.
  all: rewrite ?E1, ?E2, ?E3, ?E4, ?E5.
  all: cbn [snd trace omap call_args list_omap app].
  all: first [ apply prefix_nil
             | by eexists [_; _]
             | by eexists [_]
             | by eexists [] ].
Qed.

(** ** The snapshot directory *)

Lemma download_event (cfg : Config) (env : Env) (f : FS) repo dir o :
  EDownload repo dir o ∈ trace (script cfg env (boot f)).2 →
  repo = MODEL_ID cfg ∧ dir = str (hf_dir cfg).
Proof.
  destruct (script cfg env (boot f)) as [r w'] eqn:H. exec H.
  all: cbn [snd trace]; intros Hin; pick_event Hin.
  all: by injection Hin as -> -> _.
Qed.

(** C10.  Two runs from the same checkout download into the same
    directory, [llama.cpp/artifacts/hf_model] next to the script, whatever
    model each of them is configured with; each fetches its own model. *)
Theorem snapshot_dir_independent_of_model
    (cfg1 cfg2 : Config) (env1 env2 : Env) (f1 f2 : FS)
    (repo1 dir1 repo2 dir2 : string) (o1 o2 : fetch_outcome) :
  ROOT_DIR cfg1 = ROOT_DIR cfg2 →
  EDownload repo1 dir1 o1 ∈ trace (script cfg1 env1 (boot f1)).2 →
  EDownload repo2 dir2 o2 ∈ trace (script cfg2 env2 (boot f2)).2 →
  dir1 = dir2 ∧
  dir1 = str (ROOT_DIR cfg1 ++ ["llama.cpp"; "artifacts"; "hf_model"]) ∧
  hf_dir cfg1 = hf_dir cfg2 ∧
  repo1 = "Qwen/" +:+ MODEL_NAME cfg1 ∧
  repo2 = "Qwen/" +:+ MODEL_NAME cfg2.
Proof.
  intros Hroot H1 H2.
  apply download_event in H1 as [-> ->]. apply download_event in H2 as [-> ->].
  assert (E : ∀ c, hf_dir c = ROOT_DIR c ++ ["llama.cpp"; "artifacts"; "hf_model"]).
  { intros c. rewrite hf_dir_eq, LLAMA_CPP_DIR_eq. by rewrite <- app_assoc. }
  rewrite !E, Hroot. done.
Qed.

Lemma snapshot_dir_independent_of_model_witness :
  MODEL_ID Sample.cfg ≠ MODEL_ID Sample.other_cfg ∧
  "/home/dev/Quantized-LLM/llama.cpp/artifacts/hf_model"
    = str (ROOT_DIR Sample.cfg ++ ["llama.cpp"; "artifacts"; "hf_model"]) ∧
  hf_dir Sample.cfg = hf_dir Sample.other_cfg.
Proof.
  split; [discriminate|].
  pose proof (snapshot_dir_independent_of_model
                Sample.cfg Sample.other_cfg Sample.good Sample.idle
                Sample.ready Sample.ready
                "Qwen/Qwen2.5-1.5B-Instruct"
                "/home/dev/Quantized-LLM/llama.cpp/artifacts/hf_model"
                "Qwen/Llama-3.2-1B-Instruct"
                "/home/dev/Quantized-LLM/llama.cpp/artifacts/hf_model"
                Fetched Fetched eq_refl) as H.
  destruct H as (_ & Hd & Hh & _ & _).
  - vm_compute. set_solver.
  - vm_compute. set_solver.
  - split; [exact Hd | exact Hh].
Defined.

Lemma run_logs_spawns_and_failure_stops_witness :
  let res := script Sample.cfg Sample.converter_fails (boot Sample.ready) in
  last (trace res.2) = Some (ESpawn (cmd_convert Sample.cfg) None (Exited 3)) ∧
  (∃ e, res.1 = inl e) ∧
  ∀ d' o', ESpawn (cmd_quant Sample.cfg) d' o' ∉ trace res.2.
Proof.
  intros res.
  destruct (proj2 (run_logs_spawns_and_failure_stops Sample.cfg Sample.converter_fails)
              Sample.ready _ _ (cmd_convert Sample.cfg) None (Exited 3)
              (surjective_pairing _)) as (Hl & He & Hq).
  - vm_compute. set_solver.
  - discriminate.
  - split; [exact Hl|]. split; [exact He|]. exact (Hq eq_refl).
Defined.

(** ** More about the module body *)

Lemma grows_is_dir (P : Path → Prop) (f f' : FS) (p : Path) :
  grows P f f' → is_dir f p = true → is_dir f' p = true.
Proof.
  intros [Hold _]. destruct p as [|c p]; [done|]. unfold is_dir. simpl.
  destruct (f !! (c :: p)) as [[]|] eqn:E; try done.
  by rewrite (Hold _ _ E).
Qed.

Lemma grows_exists (P : Path → Prop) (f f' : FS) (p : Path) :
  grows P f f' → exists_ f p = true → exists_ f' p = true.
Proof.
  intros [Hold _]. destruct p as [|c p]; [done|]. unfold exists_. simpl.
  destruct (f !! (c :: p)) as [n|] eqn:E; [|done].
  by rewrite (Hold _ _ E).
Qed.

(** X1.  When the module body completes, the asset directory, [llama.cpp]
    and [artifacts] are directories, the quantizer binary exists and was
    there from the start, and the only output is the first print. *)
Theorem module_body_postcondition (cfg : Config) (f : FS) (r : exn + unit) (w' : World) :
  tree f →
  module_load cfg (boot f) = (r, w') →
  r = inr tt →
  is_dir (fs w') (ANDROID_ASSETS_DIR cfg) = true ∧
  is_dir (fs w') (LLAMA_CPP_DIR cfg) = true ∧
  is_dir (fs w') (ARTIFICATS_DIR cfg) = true ∧
  exists_ (fs w') (quant_bin cfg) = true ∧
  exists_ f (quant_bin cfg) = true ∧
  tree (fs w') ∧
  trace w' = [root_line cfg].
Proof.
  intros Hf H Hr. exec H; try discriminate Hr.
  pose proof (mkdir_parents_grows _ _ _ _ Emk0) as G.
  pose proof (mkdir_parents_tree _ _ _ _ Hf Emk) as Hf0.
  repeat split.
  - eapply grows_is_dir; [exact G|]. by eapply mkdir_parents_is_dir.
  - by eapply grows_is_dir.
  - by eapply mkdir_parents_is_dir.
  - by eapply grows_exists.
  - destruct (exists_ f (quant_bin cfg)) eqn:E0; [done|].
    by rewrite (assets_made_quant_bin cfg f f0 _ Emk E0) in Eex.
  - by eapply mkdir_parents_tree.
Qed.

Lemma module_body_postcondition_witness :
  let w' := (module_load Sample.cfg (boot Sample.ready)).2 in
  is_dir (fs w') (ANDROID_ASSETS_DIR Sample.cfg) = true ∧
  is_dir (fs w') (LLAMA_CPP_DIR Sample.cfg) = true ∧
  is_dir (fs w') (ARTIFICATS_DIR Sample.cfg) = true ∧
  exists_ (fs w') (quant_bin Sample.cfg) = true ∧
  exists_ Sample.ready (quant_bin Sample.cfg) = true ∧
  tree (fs w') ∧
  trace w' = [root_line Sample.cfg].
Proof.
  intros w'.
  eapply (module_body_postcondition Sample.cfg Sample.ready).
  - exact tree_ready.
  - apply surjective_pairing.
  - vm_compute. reflexivity.
Defined.

(** X2.  The module body can be run again on what it left behind: it
    completes again and changes nothing, every [mkdir] finding its
    directory in place. *)
Theorem module_body_idempotent (cfg : Config) (f : FS) (r : exn + unit) (w1 : World) :
  tree f →
  module_load cfg (boot f) = (r, w1) →
  r = inr tt →
  module_load cfg (boot (fs w1)) = (inr tt, {| fs := fs w1; trace := [root_line cfg] |}).
Proof.
  intros Hf H Hr. exec H; try discriminate Hr.
  pose proof (mkdir_parents_grows _ _ _ _ Emk0) as G.
  assert (Ht : tree f1).
  { eapply mkdir_parents_tree; [|exact Emk0]. by eapply mkdir_parents_tree. }
  assert (Ha : is_dir f1 (ANDROID_ASSETS_DIR cfg) = true).
  { eapply grows_is_dir; [exact G|]. by eapply mkdir_parents_is_dir. }
  assert (Hl : is_dir f1 (LLAMA_CPP_DIR cfg) = true) by (by eapply grows_is_dir).
  assert (Hq : exists_ f1 (quant_bin cfg) = true) by (by eapply grows_exists).
  assert (Hart : is_dir f1 (ARTIFICATS_DIR cfg) = true)
    by (by eapply mkdir_parents_is_dir).
  unfold module_load.
  unfold mbind, M_bind, mret, M_ret, raise, print, emit, with_fs, mkdir.
  cbn [fs trace boot app].
  rewrite (dir_exists_mkdir_noop _ _ Ht Ha). cbn [fs trace negb].
  rewrite Hl. cbn [fs trace negb]. rewrite Hq. cbn [fs trace negb].
  rewrite (dir_exists_mkdir_noop _ _ Ht Hart). reflexivity.
Qed.

Lemma module_body_idempotent_witness :
  let w1 := (module_load Sample.cfg (boot Sample.ready)).2 in
  module_load Sample.cfg (boot (fs w1))
  = (inr tt, {| fs := fs w1; trace := [root_line Sample.cfg] |}).
Proof.
  intros w1.
  eapply (module_body_idempotent Sample.cfg Sample.ready).
  - exact tree_ready.
  - apply surjective_pairing.
  - vm_compute. reflexivity.
Defined.

(** ** The stages in order *)

(** X3.  The hub is called only on a prepared file system: the module
    body has completed, so the asset directory and [artifacts] are there
    and the quantizer binary exists, and the snapshot directory has been
    made; up to then the run has added directories only. *)
Theorem download_sees_prepared_tree
    (cfg : Config) (env : Env) (f : FS) (r : exn + unit) (w' : World)
    (repo dir : string) (o : fetch_outcome) :
  tree f →
  script cfg env (boot f) = (r, w') →
  EDownload repo dir o ∈ trace w' →
  ∃ g g',
    hub_snapshot_download env (MODEL_ID cfg) (str (hf_dir cfg)) g = (o, g') ∧
    is_dir g (hf_dir cfg) = true ∧
    is_dir g (ARTIFICATS_DIR cfg) = true ∧
    is_dir g (ANDROID_ASSETS_DIR cfg) = true ∧
    exists_ g (quant_bin cfg) = true ∧
    grows (own_target cfg) f g.
Proof.
  intros Hf H Hin. exec H; pick_event Hin.
  all: injection Hin as _ _ ->.
  all: pose proof (mkdir_parents_is_dir _ _ _ Emk) as Ha.
  all: pose proof (mkdir_parents_is_dir _ _ _ Emk0) as Hart.
  all: pose proof (mkdir_parents_is_dir _ _ _ Emk1) as Hhf.
  all: apply mkdir_parents_grows in Emk, Emk0, Emk1.
  all: eexists _, _; split; [exact Ehub|].
  all: split; [exact Hhf|].
  all: split; [by eapply grows_is_dir|].
  all: split; [eapply grows_is_dir; [exact Emk1|]; by eapply grows_is_dir|].
  all: split; [eapply grows_exists; [exact Emk1|]; by eapply grows_exists|].
  all: eapply grows_trans; [|eapply grows_mono; [apply towards_hf_dir|exact Emk1]].
  all: eapply grows_trans; [|eapply grows_mono; [apply towards_artifacts|exact Emk0]].
  all: eapply grows_mono; [apply towards_assets|exact Emk].
Qed.

Lemma download_sees_prepared_tree_witness :
  ∃ g g',
    hub_snapshot_download Sample.good (MODEL_ID Sample.cfg) (str (hf_dir Sample.cfg)) g
      = (Fetched, g') ∧
    is_dir g (hf_dir Sample.cfg) = true ∧
    is_dir g (ARTIFICATS_DIR Sample.cfg) = true ∧
    is_dir g (ANDROID_ASSETS_DIR Sample.cfg) = true ∧
    exists_ g (quant_bin Sample.cfg) = true ∧
    grows (own_target Sample.cfg) Sample.ready g.
Proof.
  apply (download_sees_prepared_tree Sample.cfg Sample.good Sample.ready _ _
           (MODEL_ID Sample.cfg) (str (hf_dir Sample.cfg)) Fetched
           tree_ready (surjective_pairing _)).
  vm_compute. set_solver.
Defined.

(** X4.  The external calls of a run come in one of five shapes, each with
    its result: none (the run raised before the download); a failed
    download, raised as [HubError]; a successful download and nothing
    more (the converter script is missing); the download and a converter
    that did not exit with zero; the download, a converter that exited
    with zero and the quantizer, the run returning exactly when the
    quantizer exited with zero too.  A stage is attempted only after every
    earlier one has succeeded. *)
Theorem stages_run_in_order
    (cfg : Config) (env : Env) (f : FS) (r : exn + unit) (w' : World) :
  let fetch := EDownload (MODEL_ID cfg) (str (hf_dir cfg)) in
  let convert := ESpawn (cmd_convert cfg) None in
  let quantize := ESpawn (cmd_quant cfg) None in
  script cfg env (boot f) = (r, w') →
  (external_calls w' = [] ∧ ∃ e, r = inl e) ∨
  (∃ why, external_calls w' = [fetch (FetchFailed why)] ∧ r = inl (HubError why)) ∨
  (external_calls w' = [fetch Fetched] ∧
   r = inl (FileNotFoundError (convert_script_missing cfg))) ∨
  (∃ o1, o1 ≠ Exited 0 ∧
         external_calls w' = [fetch Fetched; convert o1] ∧ ∃ e, r = inl e) ∨
  (∃ o2, external_calls w' = [fetch Fetched; convert (Exited 0); quantize o2] ∧
         (r = inr tt ↔ o2 = Exited 0)).
Proof.
  intros fetch convert quantize H. exec H.
  all: subst.
  all: first
    [ by (left; split; [reflexivity|eexists])
    | by (right; left; eexists)
    | by (right; right; left)
    | solve [ right; right; right; left; eexists;
              split; [|split; [reflexivity|by eexists]];
              first [done | by intros [= ?]] ]
    | solve [ right; right; right; right; eexists; split; [reflexivity|];
              first [done | by (split; [done|intros [= ?]])] ] ].
Qed.

Lemma stages_run_in_order_witness :
  let w' := (script Sample.cfg Sample.converter_fails (boot Sample.ready)).2 in
  let r := (script Sample.cfg Sample.converter_fails (boot Sample.ready)).1 in
  let fetch := EDownload (MODEL_ID Sample.cfg) (str (hf_dir Sample.cfg)) in
  let convert := ESpawn (cmd_convert Sample.cfg) None in
  let quantize := ESpawn (cmd_quant Sample.cfg) None in
  (external_calls w' = [] ∧ ∃ e, r = inl e) ∨
  (∃ why, external_calls w' = [fetch (FetchFailed why)] ∧ r = inl (HubError why)) ∨
  (external_calls w' = [fetch Fetched] ∧
   r = inl (FileNotFoundError (convert_script_missing Sample.cfg))) ∨
  (∃ o1, o1 ≠ Exited 0 ∧
         external_calls w' = [fetch Fetched; convert o1] ∧ ∃ e, r = inl e) ∨
  (∃ o2, external_calls w' = [fetch Fetched; convert (Exited 0); quantize o2] ∧
         (r = inr tt ↔ o2 = Exited 0)).
Proof.
  exact (stages_run_in_order Sample.cfg Sample.converter_fails Sample.ready
           _ _ (surjective_pairing _)).
Defined.

(** ** The exceptions a run can end with *)

Lemma mkdir_exist_ok_raises_kind (f f' : FS) (p : Path) (e : exn) :
  is_dir f (parent p) = true →
  mkdir_exist_ok f p = (inl e, f') →
  e = NotADirectoryError p ∨ e = FileExistsError p.
Proof.
  intros Hpar. unfold mkdir_exist_ok, os_mkdir. destruct p as [|c p].
  - simpl. done.
  - unfold is_dir in Hpar. destruct (node_at f (parent (c :: p))) as [[]|]; try done.
    destruct (f !! (c :: p)); [|done].
    destruct (is_dir f (c :: p)); [done|]. intros [= <- _]. by right.
Qed.

(** With the errors of the model, [mkdir(parents=True, exist_ok=True)]
    raises only because something on the way is not a directory: never
    [FileNotFoundError]. *)
Lemma mkdir_up_raises_kind (rp : list string) : ∀ (f f' : FS) (e : exn),
  mkdir_up f rp = (inl e, f') →
  ∃ q, e = NotADirectoryError q ∨ e = FileExistsError q.
Proof.
  induction rp as [|c rq IH]; intros f f' e; simpl mkdir_up.
  - done.
  - destruct (os_mkdir f (rev rq ++ [c])) as [k|g]; [|done].
    destruct k.
    + destruct (mkdir_up f rq) as [[e1|[]] f1] eqn:E1.
      * intros [= <- _]. by eapply IH.
      * intros E2. exists (rev rq ++ [c]).
        eapply mkdir_exist_ok_raises_kind; [|exact E2].
        rewrite parent_snoc. by eapply mkdir_up_is_dir.
    + destruct (is_dir f _); [done|]. intros [= <- _]. eexists. by left.
    + destruct (is_dir f _); [done|]. intros [= <- _]. eexists. by right.
Qed.

(** X6.  A run that returns has printed, logged and called exactly this,
    in this order: the root line; the download announcement, the download
    and its confirmation; the conversion announcement, the [RUN] line and
    the converter; the quantization announcement, the [RUN] line and the
    quantizer; the three closing log lines; the output path. *)
Theorem successful_run_trace
    (cfg : Config) (env : Env) (f : FS) (r : exn + unit) (w' : World) :
  script cfg env (boot f) = (r, w') →
  r = inr tt →
  trace w' =
    [ EPrint ("ROOT_DIR: " +:+ str (ROOT_DIR cfg));
      ELog ("Downloading model from Hugging Face: " +:+ MODEL_ID cfg);
      EDownload (MODEL_ID cfg) (str (hf_dir cfg)) Fetched;
      ELog ("Downloaded to: " +:+ str (hf_dir cfg));
      ELog ("Converting to GGUF (f16) -> " +:+ str (GGUF_F16_MODEL_PATH cfg));
      run_line (cmd_convert cfg);
      ESpawn (cmd_convert cfg) None (Exited 0);
      ELog ("Quantizing to Q4_K_M -> " +:+ str (GGUF_Q4_MODEL_PATH cfg));
      run_line (cmd_quant cfg);
      ESpawn (cmd_quant cfg) None (Exited 0);
      ELog ("Done." +:+ newline +:+ "Outputs:");
      ELog (" - f16 GGUF: " +:+ str (GGUF_F16_MODEL_PATH cfg));
      ELog (" - Q4_K_M GGUF: " +:+ str (GGUF_Q4_MODEL_PATH cfg));
      EPrint ("GGUF_Q4_MODEL_PATH " +:+ str (GGUF_Q4_MODEL_PATH cfg)) ].
Proof.
  intros H Hr. exec H; try discriminate Hr. subst. reflexivity.
Qed.

Lemma successful_run_trace_witness :
  length (trace (script Sample.cfg Sample.good (boot Sample.ready)).2) = 14.
Proof.
  rewrite (successful_run_trace Sample.cfg Sample.good Sample.ready _ _
             (surjective_pairing _)).
  - reflexivity.
  - vm_compute. reflexivity.
Defined.

(** ** A file in the way of the asset directory *)

Lemma tree_file_has_no_children (f : FS) (q p : Path) (n : node) :
  tree f → node_at f q = Some File → q `prefix_of` p → node_at f p = Some n → p = q.
Proof.
  intros Hf Hq Hpre Hp. destruct (decide (q = p)) as [->|Hne]; [done|].
  pose proof (tree_ancestors f p Hf n Hp q Hpre Hne) as Hd.
  unfold is_dir in Hd. by rewrite Hq in Hd.
Qed.

Lemma os_mkdir_nonroot (f : FS) (p : Path) :
  p ≠ [] →
  os_mkdir f p =
    match node_at f (parent p) with
    | None => inl ENOENT
    | Some File => inl ENOTDIR
    | Some Dir =>
        match f !! p with
        | Some _ => inl EEXIST
        | None => inr (<[p := Dir]> f)
        end
    end.
Proof. by destruct p. Qed.

Lemma mkdir_up_blocked (f : FS) (rp : list string) :
  tree f →
  (∃ q, q `prefix_of` rev rp ∧ node_at f q = Some File) →
  ∃ e, mkdir_up f rp = (inl e, f).
Proof.
  intros Hf. induction rp as [|c rq IH]; intros (q & Hpre & Hq).
  - apply prefix_nil_inv in Hpre. by subst q.
  - simpl in Hpre. simpl mkdir_up.
    assert (Hp : rev rq ++ [c] ≠ []) by (by destruct (rev rq)).
    assert (Hnd : is_dir f (rev rq ++ [c]) = false).
    { unfold is_dir. destruct (node_at f (rev rq ++ [c])) as [[]|] eqn:E; try done.
      by rewrite (tree_file_has_no_children f q _ Dir Hf Hq Hpre E), Hq in E. }
    rewrite (os_mkdir_nonroot _ _ Hp), parent_snoc.
    destruct (node_at f (rev rq)) as [[]|] eqn:Er.
    + (* the parent is a directory: the file is the path itself *)
      assert (Hqp : q = rev rq ++ [c]).
      { apply prefix_snoc_inv in Hpre as [->|Hpre]; [done|].
        by rewrite (tree_file_has_no_children f q (rev rq) Dir Hf Hq Hpre Er), Hq in Er. }
      subst q. rewrite node_at_lookup in Hq by done. rewrite Hq, Hnd. by eexists.
    + rewrite Hnd. by eexists.
    + assert (Hq' : q `prefix_of` rev rq).
      { apply prefix_snoc_inv in Hpre as [->|Hpre]; [|done].
        rewrite node_at_lookup in Hq by done. apply Hf in Hq; [|done].
        by rewrite parent_snoc, Er in Hq. }
      destruct IH as [e He]; [by exists q|]. rewrite He. by eexists.
Qed.

(** X7.  When something on the way to the asset directory, [llama.cpp]
    included, is a regular file, the run stops at the first [mkdir] with
    [NotADirectoryError] or [FileExistsError]: none of the script's own
    messages is raised, nothing is written and nothing beyond the first
    print happens. *)
Theorem blocked_asset_path
    (cfg : Config) (env : Env) (f : FS) (r : exn + unit) (w' : World) (q : Path) :
  tree f →
  q `prefix_of` ANDROID_ASSETS_DIR cfg →
  node_at f q = Some File →
  script cfg env (boot f) = (r, w') →
  (∃ p, r = inl (NotADirectoryError p) ∨ r = inl (FileExistsError p)) ∧
  w' = {| fs := f; trace := [root_line cfg] |}.
Proof.
  intros Hf Hpre Hq H.
  assert (Hb : ∃ e, mkdir_up f (rev (ANDROID_ASSETS_DIR cfg)) = (inl e, f)).
  { apply mkdir_up_blocked; [done|]. exists q. by rewrite rev_involutive. }
  exec H.
  all: destruct Hb as [e' Hb]; unfold mkdir_parents in Emk; rewrite Hb in Emk.
  all: try discriminate Emk.
  injection Emk as <- <-. split; [|done].
  destruct (mkdir_up_raises_kind _ _ _ _ Hb) as [p [->| ->]]; exists p; auto.
Qed.

Lemma blocked_asset_path_witness :
  let run := script Sample.cfg Sample.good (boot llama_cpp_is_a_file) in
  (∃ p, run.1 = inl (NotADirectoryError p) ∨ run.1 = inl (FileExistsError p)) ∧
  run.2 = {| fs := llama_cpp_is_a_file; trace := [root_line Sample.cfg] |}.
Proof.
  apply (blocked_asset_path Sample.cfg Sample.good llama_cpp_is_a_file _ _
           (LLAMA_CPP_DIR Sample.cfg)).
  - apply tree_check_sound. vm_compute. reflexivity.
  - rewrite ANDROID_ASSETS_DIR_eq. by apply prefix_app_r.
  - vm_compute. reflexivity.
  - apply surjective_pairing.
Defined.

(** ** The names of the two model files *)

Lemma pieces_no_slash (b : string) : has_slash b = false → pieces b = [b].
Proof.
  unfold has_slash. induction b as [|c b IH]; [done|]. cbn -[Ascii.eqb slash].
  intros Hb. apply orb_false_elim in Hb as [Hc Hb].
  rewrite Ascii.eqb_sym, Hc. by rewrite (IH Hb).
Qed.

(** Appending a slash-free suffix to a string extends its last piece. *)
Lemma pieces_app (a b : string) :
  has_slash b = false →
  ∃ init l, pieces a = init ++ [l] ∧ pieces (a +:+ b) = init ++ [l +:+ b].
Proof.
  intros Hb. induction a as [|c a (init & l & Ea & Eab)].
  - exists [], EmptyString. simpl. by rewrite pieces_no_slash.
  - change (String c a +:+ b) with (String c (a +:+ b)).
    cbn -[Ascii.eqb slash]. destruct (Ascii.eqb c slash).
    + exists (EmptyString :: init), l. by rewrite Ea, Eab.
    + rewrite Ea, Eab. destruct init as [|h t].
      * by exists [], (String c l).
      * by exists (String c h :: t), l.
Qed.

Lemma keep_part_suffixed (l : string) : keep_part (l +:+ "_Q4_K_M.gguf") = true.
Proof.
  destruct l as [|c [|c' l]]; [reflexivity| |].
  - change (keep_part (String c "_Q4_K_M.gguf") = true).
    unfold keep_part. cbn -[Ascii.eqb]. by destruct (Ascii.eqb c ".").
  - change (keep_part (String c (String c' (l +:+ "_Q4_K_M.gguf"))) = true).
    unfold keep_part. cbn -[Ascii.eqb]. by destruct (Ascii.eqb c ".").
Qed.

Lemma is_absolute_suffixed (a b : string) :
  is_absolute b = false → is_absolute (a +:+ b) = is_absolute a.
Proof. by destruct a. Qed.

Lemma parse_parts_suffixed (name : string) :
  ∃ dirs init stem,
    pieces name = init ++ [stem] ∧
    parse_parts (name +:+ "_Q4_K_M.gguf") = dirs ++ [stem +:+ "_Q4_K_M.gguf"].
Proof.
  destruct (pieces_app name "_Q4_K_M.gguf" eq_refl) as (init & stem & Ea & Eab).
  exists (List.filter keep_part init), init, stem. split; [done|].
  unfold parse_parts. rewrite Eab, List.filter_app. simpl.
  by rewrite keep_part_suffixed.
Qed.

(** X8.  Whatever the model name, the intermediate f16 file and the final
    file carry the same file name, and that name ends in [_Q4_K_M.gguf]:
    it is the part of the model name after its last slash with the suffix
    appended. *)
Theorem model_files_share_their_name (cfg : Config) :
  ∃ init stem,
    pieces (MODEL_NAME cfg) = init ++ [stem] ∧
    last (GGUF_F16_MODEL_PATH cfg) = Some (stem +:+ "_Q4_K_M.gguf") ∧
    last (GGUF_Q4_MODEL_PATH cfg) = Some (stem +:+ "_Q4_K_M.gguf").
Proof.
  destruct (parse_parts_suffixed (MODEL_NAME cfg)) as (dirs & init & stem & Ep & Eparts).
  exists init, stem. split; [done|].
  unfold GGUF_F16_MODEL_PATH, GGUF_Q4_MODEL_PATH, div. rewrite Eparts.
  destruct (is_absolute _); rewrite ?app_assoc; by rewrite !last_snoc.
Qed.

(** X9.  With a model name that does not start with a slash the two files
    are different paths, the f16 one under [artifacts], the final one
    under the asset directory.  With a model name that starts with a
    slash both are one and the same path, the parsed name itself: the
    quantizer is then handed the same file as input and as output. *)
Theorem model_files_collide_iff_absolute (cfg : Config) :
  (is_absolute (MODEL_NAME cfg) = false →
     GGUF_F16_MODEL_PATH cfg ≠ GGUF_Q4_MODEL_PATH cfg ∧
     ARTIFICATS_DIR cfg `prefix_of` GGUF_F16_MODEL_PATH cfg ∧
     ANDROID_ASSETS_DIR cfg `prefix_of` GGUF_Q4_MODEL_PATH cfg) ∧
  (is_absolute (MODEL_NAME cfg) = true →
     GGUF_F16_MODEL_PATH cfg = GGUF_Q4_MODEL_PATH cfg ∧
     GGUF_F16_MODEL_PATH cfg = parse_parts (MODEL_NAME cfg +:+ "_Q4_K_M.gguf")).
Proof.
  unfold GGUF_F16_MODEL_PATH, GGUF_Q4_MODEL_PATH, div.
  rewrite (is_absolute_suffixed (MODEL_NAME cfg) "_Q4_K_M.gguf" eq_refl).
  split; intros ->.
  - split; [|split; by apply prefix_app_r].
    rewrite ARTIFICATS_DIR_eq, ANDROID_ASSETS_DIR_eq, <- !app_assoc.
    intros Heq. apply app_inv_head in Heq. discriminate Heq.
  - done.
Qed.

Lemma model_files_collide_iff_absolute_witness :
  (GGUF_F16_MODEL_PATH Sample.cfg ≠ GGUF_Q4_MODEL_PATH Sample.cfg ∧
   ARTIFICATS_DIR Sample.cfg `prefix_of` GGUF_F16_MODEL_PATH Sample.cfg ∧
   ANDROID_ASSETS_DIR Sample.cfg `prefix_of` GGUF_Q4_MODEL_PATH Sample.cfg) ∧
  GGUF_Q4_MODEL_PATH absolute_name = ["tmp"; "model_Q4_K_M.gguf"].
Proof.
  split.
  - exact (proj1 (model_files_collide_iff_absolute Sample.cfg) eq_refl).
  - destruct (proj2 (model_files_collide_iff_absolute absolute_name) eq_refl) as [E1 E2].
    rewrite <- E1, E2. reflexivity.
Defined.

(** ** Reading a command back from its [RUN] line *)

Lemma has_space_cons (c : ascii) (s : string) :
  has_space (String c s) = Ascii.eqb space c || has_space s.
Proof. reflexivity. Qed.

Lemma has_space_app (y r : string) : has_space (y +:+ String space r) = true.
Proof.
  induction y as [|c y IH].
  - change (has_space (String space r) = true). rewrite has_space_cons.
    by rewrite Ascii.eqb_refl.
  - change (has_space (String c (y +:+ String space r)) = true).
    rewrite has_space_cons, IH. apply orb_true_r.
Qed.

(** Two space-free words followed by a space and more text agree only if
    the words and the rest agree. *)
Lemma first_word_unique (x y r1 r2 : string) :
  has_space x = false → has_space y = false →
  x +:+ String space r1 = y +:+ String space r2 → x = y ∧ r1 = r2.
Proof.
  revert y. induction x as [|c x IH]; intros [|d y] Hx Hy.
  - by intros [= ->].
  - change ((String space r1 = String d (y +:+ String space r2)) → EmptyString = String d y ∧ r1 = r2).
    intros [= <- _]. rewrite has_space_cons, Ascii.eqb_refl in Hy. done.
  - change ((String c (x +:+ String space r1) = String space r2) → String c x = EmptyString ∧ r1 = r2).
    intros [= -> _]. rewrite has_space_cons, Ascii.eqb_refl in Hx. done.
  - change ((String c (x +:+ String space r1) = String d (y +:+ String space r2))
            → String c x = String d y ∧ r1 = r2).
    intros [= -> E]. rewrite has_space_cons in Hx, Hy.
    apply orb_false_elim in Hx as [_ Hx]. apply orb_false_elim in Hy as [_ Hy].
    destruct (IH y Hx Hy E) as [-> ->]. done.
Qed.

Lemma concat_cons2 (x y : string) (l : list string) :
  String.concat " " (x :: y :: l) = x +:+ String space (String.concat " " (y :: l)).
Proof. reflexivity. Qed.

Lemma join_space_free_inj (l1 : list string) : ∀ l2,
  l1 ≠ [] → l2 ≠ [] →
  Forall (λ a, has_space a = false) l1 →
  Forall (λ a, has_space a = false) l2 →
  String.concat " " l1 = String.concat " " l2 → l1 = l2.
Proof.
  induction l1 as [|x l1 IH]; intros l2 H1 H2 F1 F2; [done|].
  destruct l2 as [|y l2]; [done|].
  apply Forall_cons in F1 as [Hx F1]. apply Forall_cons in F2 as [Hy F2].
  destruct l1 as [|x' l1], l2 as [|y' l2].
  - simpl. by intros ->.
  - rewrite concat_cons2. simpl String.concat at 1. intros ->.
    by rewrite has_space_app in Hx.
  - rewrite concat_cons2. simpl String.concat at 2. intros <-.
    by rewrite has_space_app in Hy.
  - rewrite !concat_cons2. intros E.
    apply first_word_unique in E as [-> E]; [|done..].
    f_equal. by apply IH.
Qed.

(** X10.  The line [run] logs determines the command when no argument
    contains a space: two non-empty argument lists of space-free words
    with the same [RUN] line are the same list. *)
Theorem run_line_determines_command (cmd1 cmd2 : list string) :
  cmd1 ≠ [] → cmd2 ≠ [] →
  Forall (λ a, has_space a = false) cmd1 →
  Forall (λ a, has_space a = false) cmd2 →
  run_line cmd1 = run_line cmd2 →
  cmd1 = cmd2.
Proof.
  intros H1 H2 F1 F2 E. unfold run_line in E. injection E as E.
  by apply join_space_free_inj.
Qed.

(** Without that condition the line is ambiguous: an argument with a space
    logs like two arguments, and no argument at all like one empty one. *)
Lemma run_line_ambiguous :
  run_line ["my model"] = run_line ["my"; "model"] ∧
  run_line [] = run_line [EmptyString].
Proof. split; reflexivity. Qed.

Lemma run_line_determines_command_witness :
  cmd_quant Sample.cfg =
    [ "/home/dev/Quantized-LLM/llama.cpp/build/bin/llama-quantize";
      "/home/dev/Quantized-LLM/llama.cpp/artifacts/Qwen2.5-1.5B-Instruct_Q4_K_M.gguf";
      "/home/dev/Quantized-LLM/llama.cpp/examples/llama.android/app/src/main/assets/models/Qwen2.5-1.5B-Instruct_Q4_K_M.gguf";
      "Q4_K_M" ].
Proof.
  apply run_line_determines_command.
  - discriminate.
  - discriminate.
  - repeat constructor.
  - repeat constructor.
  - reflexivity.
Defined.

(** ** The benchmark printer *)

Lemma print_record_spec (index : nat) (row : BenchRow) (w : World) :
  print_record index row w
  = (inr tt, {| fs := fs w; trace := trace w ++ List.map EPrint (record_lines index row) |}).
Proof.
  unfold print_record. unfold_monad. cbn [fs trace record_lines List.map].
  by rewrite <- !app_assoc.
Qed.

Lemma iterrows_spec (rows : list BenchRow) : ∀ (index : nat) (w : World),
  iterrows print_record index rows w
  = (inr tt, {| fs := fs w;
                trace := trace w ++ List.map EPrint (all_record_lines index rows) |}).
Proof.
  induction rows as [|row rest IH]; intros index w.
  - simpl. rewrite app_nil_r. by destruct w.
  - cbn [iterrows all_record_lines]. unfold mbind, M_bind.
    rewrite print_record_spec, IH. cbn [fs trace].
    by rewrite List.map_app, <- app_assoc.
Qed.

Lemma length_all_record_lines (rows : list BenchRow) (index : nat) :
  length (all_record_lines index rows) = 10 * length rows.
Proof.
  revert index. induction rows as [|row rest IH]; intros index; [done|].
  cbn [all_record_lines]. rewrite length_app, IH. simpl. lia.
Qed.

Lemma all_record_lines_block (rows : list BenchRow) : ∀ (index k : nat) (row : BenchRow),
  rows !! k = Some row →
  take 10 (drop (10 * k) (all_record_lines index rows)) = record_lines (index + k) row.
Proof.
  induction rows as [|r rest IH]; intros index k row Hk; [done|].
  cbn [all_record_lines]. destruct k as [|k].
  - injection Hk as ->. rewrite Nat.add_0_r.
    replace (10 * 0) with 0 by lia. rewrite drop_0. by apply take_app_length'.
  - simpl in Hk. replace (10 * S k) with (length (record_lines index r) + 10 * k)
      by (simpl; lia).
    rewrite drop_app_add'; [|done]. rewrite (IH (S index) k row Hk).
    f_equal. lia.
Qed.

(** X11.  [analyze_benchmark] reads the file before it prints anything: if
    reading raises, the exception is passed on and nothing is printed.
    Otherwise it prints the summary title and a rule of forty dashes, and
    then ten lines for every row in order, so [2 + 10 n] lines for [n]
    rows; the block of the row at position [k] starts at line [2 + 10 k]
    and is headed [Record k+1].  An empty log gives the two header lines
    only.  The file system is not touched. *)
Theorem analyze_benchmark_output
    (read_csv : string → FS → exn + list BenchRow)
    (file_path model_name : string) (w : World) :
  match read_csv file_path (fs w) with
  | inl e => analyze_benchmark read_csv file_path model_name w = (inl e, w)
  | inr df =>
      ∃ out,
        analyze_benchmark read_csv file_path model_name w
        = (inr tt, {| fs := fs w; trace := trace w ++ List.map EPrint out |}) ∧
        length out = 2 + 10 * length df ∧
        take 2 out = [ newline +:+ model_name +:+ " Performance Summary:";
                       string_times "-" 40 ] ∧
        String.length (string_times "-" 40) = 40 ∧
        (df = [] → length out = 2) ∧
        ∀ k row, df !! k = Some row →
                 take 10 (drop (2 + 10 * k) out) = record_lines k row
  end.
Proof.
  unfold analyze_benchmark. destruct (read_csv file_path (fs w)) as [e|df]; [done|].
  exists ([ newline +:+ model_name +:+ " Performance Summary:"; string_times "-" 40 ]
            ++ all_record_lines 0 df).
  split; [|split; [|split; [|split; [|split]]]].
  - unfold_monad. rewrite iterrows_spec. cbn [fs trace].
    by rewrite List.map_app, <- !app_assoc.
  - rewrite length_app, length_all_record_lines. reflexivity.
  - reflexivity.
  - reflexivity.
  - intros ->. reflexivity.
  - intros k row Hk. change (2 + 10 * k) with (S (S (10 * k))).
    cbn [app drop]. by apply (all_record_lines_block df 0 k row).
Qed.

(** ** A failing run repeated *)

(** A run that fails in the module body ends as the module body does. *)
Lemma script_fails_in_module_body (cfg : Config) (env : Env) (w w1 : World) (e : exn) :
  module_load cfg w = (inl e, w1) → script cfg env w = (inl e, w1).
Proof. intros H. unfold script, mbind, M_bind. by rewrite H. Qed.

Lemma tree_after_failed_run : tree after_failed_run.
Proof. apply tree_check_sound. vm_compute. reflexivity. Qed.

(** C9, as stated, fails: on the file system a first failing run left, the
    run fails at the same check again and leaves the file system as it
    found it. *)
Lemma rerun_after_failure_changes_nothing :
  let first := script Sample.cfg Sample.good (boot Sample.cloned) in
  let again := script Sample.cfg Sample.good (boot after_failed_run) in
  first.1 = inl (FileNotFoundError (quant_bin_missing Sample.cfg)) ∧
  fs first.2 = after_failed_run ∧
  again.1 = inl (FileNotFoundError (quant_bin_missing Sample.cfg)) ∧
  fs again.2 = after_failed_run.
Proof.
  intros first again.
  assert (H1 : first = (inl (FileNotFoundError (quant_bin_missing Sample.cfg)),
                        (module_load Sample.cfg (boot Sample.cloned)).2)).
  { assert (E : (module_load Sample.cfg (boot Sample.cloned)).1
                = inl (FileNotFoundError (quant_bin_missing Sample.cfg)))
      by (vm_compute; reflexivity).
    apply script_fails_in_module_body. rewrite <- E. apply surjective_pairing. }
  destruct (missing_binary_reported Sample.cfg Sample.good after_failed_run
              again.1 again.2 tree_after_failed_run) as [H2 H3].
  - vm_compute. reflexivity.
  - vm_compute. reflexivity.
  - apply surjective_pairing.
  - rewrite H1, H2, H3. unfold after_failed_run. cbn [fst snd fs].
    repeat split.
Qed.

(** ** When the paths are bound *)

Ltac step_statements H :=
  cbv beta iota zeta delta
    [exec_stmts names entered bound enter assign value lookup_name name_code stage_code
     Nat.eqb start unbound fs trace boot negb app] in H.

Ltac split_statements H :=
  match type of H with
  | context [is_dir ?f ?p] =>
      let D := fresh "Edir" in destruct (is_dir f p) eqn:D
  | context [exists_ ?f ?p] =>
      let D := fresh "Eex" in destruct (exists_ f p) eqn:D
  | _ => exec_step H
  end.

Ltac exec_statements H :=
  unfold statements, run, snapshot_download, subprocess_run_check in H;
  unfold mbind, M_bind, mret, M_ret, raise, print, logger_info, emit, with_fs, mkdir in H;
  step_statements H;
  repeat (split_statements H; step_statements H);
  injection H as <- <- <-.

(** Replay in the goal the choices recorded in the hypotheses. *)
Ltac replay :=
  repeat match goal with
         | E : mkdir_parents ?f ?p = _ |- context [mkdir_parents ?f ?p] => rewrite E
         | E : is_dir ?f ?p = _ |- context [is_dir ?f ?p] => rewrite E
         | E : exists_ ?f ?p = _ |- context [exists_ ?f ?p] => rewrite E
         | E : hub_snapshot_download ?e ?a ?b ?f = _
           |- context [hub_snapshot_download ?e ?a ?b ?f] => rewrite E
         | E : os_spawn ?e ?c ?d ?f = _ |- context [os_spawn ?e ?c ?d ?f] => rewrite E
         | E : ?rc = 0%Z |- context [Z.eqb ?rc 0] => rewrite E
         | E : ?rc ≠ 0%Z |- context [Z.eqb ?rc 0] => rewrite (proj2 (Z.eqb_neq rc 0) E)
         | |- _ => progress cbn [fs trace boot negb app Z.eqb]
         end.

(** Run statement by statement, the script does what [script] does. *)
Lemma statements_run_the_script (cfg : Config) (env : Env) (f : FS) r fr w' :
  exec_stmts (statements cfg env) start (boot f) = (r, fr, w') →
  script cfg env (boot f) = (r, w').
Proof.
  intros H. exec_statements H.
  all: unfold script, main, module_load, run, snapshot_download, subprocess_run_check.
  all: unfold mbind, M_bind, mret, M_ret, raise, print, logger_info, emit, with_fs, mkdir.
  all: unfold cmd_convert, cmd_quant, llama_cpp_missing, quant_bin_missing, build_command,
         convert_script_missing, hf_to_gguf_convert_script, GGUF_Q4_MODEL_PATH,
         GGUF_F16_MODEL_PATH, hf_dir, quant_bin, ANDROID_ASSETS_DIR, ARTIFICATS_DIR,
         LLAMA_CPP_DIR.
  all: cbn [fs trace boot negb app].
  all: replay.
  all: reflexivity.
Qed.

(** Take a membership in an explicit list of bindings apart. *)
Ltac pick_binding H :=
  repeat (apply elem_of_cons in H as [H|H]; [try discriminate H|]);
  try (apply elem_of_nil in H; destruct H).

(** What is bound holds the configured path, and when each binding is made. *)
Lemma statements_bindings (cfg : Config) (env : Env) (f : FS) r fr w' :
  exec_stmts (statements cfg env) start (boot f) = (r, fr, w') →
  Forall (fun b : name * Path => b.2 = path_of cfg b.1) (names fr) ∧
  (N_GGUF_F16_MODEL_PATH, []) ∈ bound fr ∧
  (∀ st, (N_GGUF_Q4_MODEL_PATH, st) ∈ bound fr → st = []) ∧
  (∀ st, (N_hf_dir, st) ∈ bound fr → st = [Acquisition; Preflight]) ∧
  (∀ st, (N_hf_to_gguf_convert_script, st) ∈ bound fr → st = [Acquisition; Preflight]).
Proof.
  intros H. exec_statements H.
  all: split; [repeat constructor|].
  all: split; [set_solver|].
  all: repeat split; intros st Hin; pick_binding Hin; by injection Hin as ->.
Qed.

(** C8, as stated, fails: in a run on a built checkout the snapshot
    directory and the converter-script path are bound only when the
    preflight checks have run and the acquisition stage has begun. *)
Lemma snapshot_dir_bound_after_preflight :
  let res := exec_stmts (statements Sample.cfg Sample.good) start (boot Sample.ready) in
  script Sample.cfg Sample.good (boot Sample.ready) = (res.1.1, res.2) ∧
  (N_hf_dir, [Acquisition; Preflight]) ∈ bound res.1.2 ∧
  (N_hf_to_gguf_convert_script, [Acquisition; Preflight]) ∈ bound res.1.2.
Proof.
  split.
  - apply (statements_run_the_script _ _ _ _ (exec_stmts (statements Sample.cfg Sample.good)
             start (boot Sample.ready)).1.2).
    by destruct (exec_stmts _ _ _) as [[? ?] ?].
  - vm_compute. split; set_solver.
Qed.

(** C8, amended.  Run statement by statement, the script behaves as
    [script] does, and for every file system and every behaviour of the
    outside world: each name that gets bound holds the path the
    configuration gives it; the external calls, read with their arguments,
    are an initial part of one list fixed by the configuration; the f16
    path is bound, and the output path if it is bound, before any stage is
    entered; the snapshot directory and the converter-script path are
    bound inside [main], when the preflight checks have run and the
    acquisition stage has begun.  The statements have no way to rename a
    path or to look one up. *)
Theorem paths_fixed_and_when_bound (cfg : Config) (env : Env) (f : FS) :
  let res := exec_stmts (statements cfg env) start (boot f) in
  let fr := res.1.2 in
  script cfg env (boot f) = (res.1.1, res.2) ∧
  Forall (fun b : name * Path => b.2 = path_of cfg b.1) (names fr) ∧
  omap call_args (trace res.2) `prefix_of`
    [ [MODEL_ID cfg; str (hf_dir cfg)];
      cmd_convert cfg;
      cmd_quant cfg ] ∧
  hf_dir cfg = ROOT_DIR cfg ++ ["llama.cpp"; "artifacts"; "hf_model"] ∧
  GGUF_F16_MODEL_PATH cfg
    = (ROOT_DIR cfg ++ ["llama.cpp"; "artifacts"]) // (MODEL_NAME cfg +:+ "_Q4_K_M.gguf") ∧
  GGUF_Q4_MODEL_PATH cfg
    = (ROOT_DIR cfg ++ ["llama.cpp"; "examples"; "llama.android"; "app"; "src";
                        "main"; "assets"; "models"])
        // (MODEL_NAME cfg +:+ "_Q4_K_M.gguf") ∧
  (N_GGUF_F16_MODEL_PATH, []) ∈ bound fr ∧
  (∀ st, (N_GGUF_Q4_MODEL_PATH, st) ∈ bound fr → st = []) ∧
  (∀ st, (N_hf_dir, st) ∈ bound fr → st = [Acquisition; Preflight]) ∧
  (∀ st, (N_hf_to_gguf_convert_script, st) ∈ bound fr → st = [Acquisition; Preflight]).
Proof.
  intros res fr. subst fr.
  destruct res as [[r fr] w'] eqn:H. unfold res in H. cbn [fst snd].
  pose proof (statements_run_the_script _ _ _ _ _ _ H) as Hs.
  destruct (statements_bindings _ _ _ _ _ _ H) as (Hn & Hb).
  destruct (paths_fixed_by_configuration cfg env f) as (Hp & E1 & E2 & E3).
  rewrite Hs in Hp. cbn [snd] in Hp.
  split; [done|]. split; [done|]. split.
  - unfold cmd_convert, cmd_quant, MODEL_ID.
    rewrite E1, E2, E3.
    replace (hf_to_gguf_convert_script cfg)
      with (ROOT_DIR cfg ++ ["llama.cpp"; "convert_hf_to_gguf.py"]).
    2:{ unfold hf_to_gguf_convert_script, div. rewrite LLAMA_CPP_DIR_eq. simpl.
        by rewrite <- app_assoc. }
    replace (quant_bin cfg)
      with (ROOT_DIR cfg ++ ["llama.cpp"; "build"; "bin"; "llama-quantize"]).
    2:{ rewrite quant_bin_eq, LLAMA_CPP_DIR_eq. by rewrite <- app_assoc. }
    exact Hp.
  - split; [exact E1|]. split; [exact E2|]. split; [exact E3|]. exact Hb.
Qed.
